(** * rentNaija: checkout flow, subscription fetch and property wizard

    A shallow embedding of the client-side logic of the repository:

    - [Checkout]      the plan / payment-gateway selection component,
    - [Subscriptions] [getUserSubscriptions] of [features/landing/api],
    - [AddProperty]   the five-step property submission wizard.

    React state ([useState]) is a record that every handler transforms;
    the effects a handler performs ([alert], [showAlert], [axios] calls)
    are appended to logs kept in the same record, so that "a notice is
    shown" and "no request is sent" are statements about those logs. *)

From stdpp Require Import base decidable option list strings gmap pretty.
From Stdlib Require Import ZArith Lia.

Open Scope Z_scope.

(** ** JavaScript values as they occur in the sources *)

Module JS.

(** A browser [File]: only the name and size are inspected by the code;
    [file_uid] distinguishes two files with the same name and size. *)
Record File := mkFile {
  file_name : string;
  file_size : Z;
  file_uid  : nat
}.

#[global] Instance File_eq_dec : EqDecision File.
Proof. solve_decision. Defined.

(** The values a form field, a response flag or a payload entry holds.
    Numbers are integers here: the sources only compare them, print
    them and divide [maxSize] by a divisor of it. *)
Inductive Value :=
| VUndefined
| VNull
| VBool (b : bool)
| VNum (n : Z)
| VStr (s : string)
| VFile (f : File)
| VArr (l : list string).

#[global] Instance Value_eq_dec : EqDecision Value.
Proof. solve_decision. Defined.

(** ToBoolean: what [if (v)], [!v], [v || w] and [Array.some] test. *)
Definition truthy (v : Value) : bool :=
  match v with
  | VUndefined | VNull => false
  | VBool b => b
  | VNum n => negb (n =? 0)
  | VStr s => negb (String.eqb s "")
  | VFile _ => true
  | VArr _ => true
  end.

(** [v instanceof File] *)
Definition instanceofFile (v : Value) : bool :=
  match v with VFile _ => true | _ => false end.

(** [v !== null && v !== undefined] *)
Definition notNullish (v : Value) : bool :=
  match v with VUndefined | VNull => false | _ => true end.

(** [Array.prototype.join] *)
Fixpoint join (sep : string) (l : list string) : string :=
  match l with
  | [] => ""
  | [x] => x
  | x :: rest => x +:+ sep +:+ join sep rest
  end.

(** [n.toString()] and the interpolation of a number in a template,
    for the integers JavaScript holds exactly and prints in plain
    decimal digits (the safe integers, of absolute value below 2^53;
    from 1e21 on JavaScript prints an exponent form instead). *)
Definition numToString (n : Z) : string := pretty n.

(** [v.toString()], for the values that have the method. *)
Definition toString (v : Value) : string :=
  match v with
  | VUndefined => "undefined"
  | VNull => "null"
  | VBool true => "true"
  | VBool false => "false"
  | VNum n => numToString n
  | VStr s => s
  | VFile _ => "[object File]"
  | VArr l => join "," l
  end.

Definition dquote : string := String (Ascii.ascii_of_nat 34) EmptyString.
Definition backslash : string := String (Ascii.ascii_of_nat 92) EmptyString.

(** [JSON.stringify] on a string: the quotation mark and the reverse
    solidus are escaped (the amenity vocabulary has no control
    characters, which would need a [\u] escape). *)
Fixpoint jsonEscape (s : string) : string :=
  match s with
  | EmptyString => EmptyString
  | String c rest =>
      if Ascii.eqb c (Ascii.ascii_of_nat 34) then backslash +:+ dquote +:+ jsonEscape rest
      else if Ascii.eqb c (Ascii.ascii_of_nat 92) then backslash +:+ backslash +:+ jsonEscape rest
      else String c (jsonEscape rest)
  end.

Definition jsonString (s : string) : string := dquote +:+ jsonEscape s +:+ dquote.

(** [JSON.stringify] on an array of strings. *)
Definition jsonStringify (l : list string) : string :=
  "[" +:+ join "," (map jsonString l) +:+ "]".

End JS.

Import JS.

(** ** The checkout component *)

Module Checkout.

(** Modelled from the spec: the declaration of [PlansInterface]
    ([@/types/subscription]) is not part of the sources; the spec lists
    identifier, name, price, currency, billing interval and description,
    which are also the fields the component reads. *)
Record PlansInterface := mkPlan {
  id : Z;
  name : string;
  price : Z;
  currency : string;
  invoice_interval : string;
  description : list string
}.

#[global] Instance PlansInterface_eq_dec : EqDecision PlansInterface.
Proof. solve_decision. Defined.

(** The handler element stored in a gateway entry; each is built with
    the plan selected at the render that built the list and with
    [setGatewayResponse] as completion callback. *)
Inductive Component :=
| BankTransfer (plan : option PlansInterface)
| Paystack (plan : option PlansInterface).

#[global] Instance Component_eq_dec : EqDecision Component.
Proof. solve_decision. Defined.

Inductive Icon := BanknoteIcon | BankIcon.

#[global] Instance Icon_eq_dec : EqDecision Icon.
Proof. solve_decision. Defined.

Record GatewayI := mkGateway {
  title : string;
  slug : string;
  component : Component;
  active : bool;
  icon : Icon;
  className : string
}.

#[global] Instance GatewayI_eq_dec : EqDecision GatewayI.
Proof. solve_decision. Defined.

(** The three [useState] cells, and the two effect logs: the messages
    passed to [alert] and the arguments passed to [console.log]. *)
Record State := mkState {
  selectedPlan : option PlansInterface;
  selectedGateway : option GatewayI;
  gatewayResponse : option Value;
  alerts : list string;
  console : list (string * string * bool)
}.

#[global] Instance State_eq_dec : EqDecision State.
Proof. solve_decision. Defined.

Definition initialState : State :=
  {| selectedPlan := None; selectedGateway := None; gatewayResponse := None;
     alerts := []; console := [] |}.

Definition setSelectedPlan (p : option PlansInterface) (st : State) : State :=
  {| selectedPlan := p; selectedGateway := selectedGateway st;
     gatewayResponse := gatewayResponse st;
     alerts := alerts st; console := console st |}.

Definition setSelectedGateway (g : option GatewayI) (st : State) : State :=
  {| selectedPlan := selectedPlan st; selectedGateway := g;
     gatewayResponse := gatewayResponse st;
     alerts := alerts st; console := console st |}.

Definition setGatewayResponse (r : option Value) (st : State) : State :=
  {| selectedPlan := selectedPlan st; selectedGateway := selectedGateway st;
     gatewayResponse := r;
     alerts := alerts st; console := console st |}.

Definition alert (msg : string) (st : State) : State :=
  {| selectedPlan := selectedPlan st; selectedGateway := selectedGateway st;
     gatewayResponse := gatewayResponse st;
     alerts := alerts st ++ [msg]; console := console st |}.

Definition console_log (tag sl : string) (a : bool) (st : State) : State :=
  {| selectedPlan := selectedPlan st; selectedGateway := selectedGateway st;
     gatewayResponse := gatewayResponse st;
     alerts := alerts st; console := console st ++ [(tag, sl, a)] |}.

(** [const gateways : GatewayI[] = [...]], rebuilt at every render from
    the current [selectedPlan]. *)
Definition gateways (sp : option PlansInterface) : list GatewayI :=
  [ {| title := "Bank Transfer"; slug := "bank-transfer";
       component := BankTransfer sp; active := true; icon := BanknoteIcon;
       className := "text-lg font-bold bg-gray-800 text-white rounded hover:shadow-lg" |};
    {| title := "Paystack"; slug := "paystack";
       component := Paystack sp; active := false; icon := BankIcon;
       className := "text-lg font-bold bg-blue-200 text-black rounded hover:shadow-lg" |} ].

(** [selectedPlanIs]: [plans] is the optional prop; [plans?.filter]
    is [undefined] only when the prop is, and an array (also the empty
    one) is truthy, so [set[0]] is stored whenever [plans] is given. *)
Definition selectedPlanIs (plans : option (list PlansInterface)) (i : Z)
    (st : State) : State :=
  match plans with
  | Some ps =>
      let set := List.filter (fun r => id r =? i) ps in
      setSelectedPlan (head set) st
  | None => st
  end.

(** [selectedPaymentMethodIs] *)
Definition selectedPaymentMethodIs (sl : string) (act : bool) (st : State) : State :=
  let st := console_log "here" sl act st in
  if negb act then alert "Gateway Not Available" st
  else
    let set := List.filter (fun r => String.eqb (slug r) sl) (gateways (selectedPlan st)) in
    setSelectedGateway (head set) st.

(** What the component returns: the stored handler element, the
    payment-method screen for the chosen plan, or the plan list. *)
Inductive View :=
| ViewGateway (c : Component)
| ViewSelectPaymentMethod (p : PlansInterface) (ways : list GatewayI)
| ViewPlanSelection (plans : option (list PlansInterface)).

Definition render (plans : option (list PlansInterface)) (st : State) : View :=
  match selectedGateway st, selectedPlan st with
  | Some g, Some _ => ViewGateway (component g)
  | _, Some p => ViewSelectPaymentMethod p (gateways (selectedPlan st))
  | _, None => ViewPlanSelection plans
  end.

(** The buttons of the payment-method screen: one per gateway, each
    calling [selectedPaymentMethodIs (way.slug, way.active)]. *)
Definition clickGateway (way : GatewayI) (st : State) : State :=
  selectedPaymentMethodIs (slug way) (active way) st.

End Checkout.

(** ** Browser environment and [axios] *)

Module Http.

(** [window] is absent during server-side rendering; [localStorage]
    is the browser-local persistent store. *)
Record Env := mkEnv {
  window : bool;
  localStorage : gmap string string
}.

(** [localStorage.getItem] *)
Definition getItem (k : string) (env : Env) : option string :=
  localStorage env !! k.

(** [!token] for a value of type [string | null] *)
Definition tokenMissing (t : option string) : bool :=
  match t with
  | None => true
  | Some s => String.eqb s ""
  end.

(** A string-or-null interpolated in a template literal. *)
Definition interpolate (t : option string) : string :=
  match t with
  | None => "null"
  | Some s => s
  end.

Inductive FormEntry :=
| FText (s : string)
| FBlob (f : File).

#[global] Instance FormEntry_eq_dec : EqDecision FormEntry.
Proof. solve_decision. Defined.

(** [FormData]: an ordered list of entries, duplicates allowed. *)
Definition FormData := list (string * FormEntry).

Inductive Method := GET | POST.

#[global] Instance Method_eq_dec : EqDecision Method.
Proof. solve_decision. Defined.

Record Request := mkRequest {
  method : Method;
  url : string;
  headers : list (string * string);
  withCredentials : bool;
  body : option FormData
}.

#[global] Instance Request_eq_dec : EqDecision Request.
Proof. solve_decision. Defined.

(** [error.response]: its [status], and [data?.message] when it is a
    string ([None] stands for an absent body or message). *)
Record ErrorResponse := mkErrorResponse {
  status : Z;
  message : option string
}.

(** An [AxiosError]; [response] is absent when no answer arrived. *)
Record AxiosError := mkAxiosError {
  response : option ErrorResponse
}.

(** What a [catch] clause receives: [axios.isAxiosError] holds of the
    first kind only. *)
Inductive Thrown :=
| ThrownAxios (e : AxiosError)
| ThrownError (msg : string).

Definition isAxiosError (t : Thrown) : bool :=
  match t with ThrownAxios _ => true | ThrownError _ => false end.

(** [error.response?.status] *)
Definition responseStatus (e : AxiosError) : option Z :=
  status <$> response e.

(** [error.response?.data?.message] *)
Definition responseMessage (e : AxiosError) : option string :=
  response e ≫= message.

(** How a promise settles: with a value, or with a thrown error. *)
Inductive Outcome (D : Type) :=
| Resolved (d : D)
| Rejected (t : Thrown).

Arguments Resolved {D} d.
Arguments Rejected {D} t.

End Http.

Import Http.

(** ** [features/landing/api/subscriptions.ts] *)

Module Subscriptions.

Section WithConfig.

(** [baseURL] comes from [next.config]; [D] is the type of the
    response body, [ApiSubscriptionResponse]. *)
Variable baseURL : string.
Variable D : Type.

(** [getUserSubscriptions (page = 1, search = '')]: [server] is how
    the backend would settle the request. The result is the list of
    requests sent and how the returned promise settles. Reading
    [localStorage] where it does not exist throws, and the [catch]
    clause rethrows whatever was thrown. *)
Definition getUserSubscriptions (page : option Z) (search : option string)
    (env : Env) (server : Outcome D) : list Request * Outcome D :=
  let page := default 1 page in
  let search := default "" search in
  if negb (window env) then ([], Rejected (ThrownError "localStorage is not defined"))
  else
    let token := getItem "token" env in
    if tokenMissing token then ([], Rejected (ThrownError "No authentication token found"))
    else
      let req :=
        {| method := GET;
           url := baseURL +:+ "/subscriptions?page=" +:+ numToString page
                    +:+ "&search=" +:+ search;
           headers := [("Authorization", "Bearer " +:+ interpolate token);
                       ("Accept", "application/json")];
           withCredentials := false;
           body := None |} in
      ([req], server).

End WithConfig.

End Subscriptions.

(** ** [features/agent/dashboard/components/AddProperty.tsx] *)

Module AddProperty.

Record Category := mkCategory {
  cat_id : Z;
  cat_title : string;
  cat_slug : string
}.

#[global] Instance Category_eq_dec : EqDecision Category.
Proof. solve_decision. Defined.

Inductive FileType := image | video.

#[global] Instance FileType_eq_dec : EqDecision FileType.
Proof. solve_decision. Defined.

(** [PreviewMap]: an object used as a map from field name to URL. *)
Abbreviation PreviewMap := (gmap string string).

(** The values object of the form: a JS object, whose keys keep the
    order in which they were first set ([Object.entries] reads it). *)
Definition Form := list (string * Value).

(** [setValue (name, v)]: an existing key keeps its place, a new key
    goes last. *)
Fixpoint setValue (k : string) (v : Value) (f : Form) : Form :=
  match f with
  | [] => [(k, v)]
  | (k', v') :: rest =>
      if String.eqb k' k then (k, v) :: rest else (k', v') :: setValue k v rest
  end.

(** [watch (name)] and [data[name]]: [undefined] for a missing key. *)
Fixpoint watch (k : string) (f : Form) : Value :=
  match f with
  | [] => VUndefined
  | (k', v') :: rest => if String.eqb k' k then v' else watch k rest
  end.

Definition AVAILABLE_AMENITIES : list string :=
  [ "WiFi"; "Parking"; "Air Conditioning"; "Swimming Pool"; "Gym";
    "Security"; "Furnished"; "Balcony"; "Garden"; "Pet Friendly";
    "Elevator"; "CCTV"; "Generator"; "Water Supply"; "Kitchen" ].

Inductive AlertKind := error | info | success.

#[global] Instance AlertKind_eq_dec : EqDecision AlertKind.
Proof. solve_decision. Defined.

(** A [FileReader] started by [handleFileChange] whose [onloadend] has
    not fired yet. *)
Record ReaderTask := mkReaderTask {
  task_field : string;
  task_type : FileType;
  task_file : File
}.

#[global] Instance ReaderTask_eq_dec : EqDecision ReaderTask.
Proof. solve_decision. Defined.

(** The [useState] cells of the component, the form values held by
    [useForm], and three records of effects: the notices passed to
    [showAlert], the requests passed to [axios], and the readers
    started and still loading. *)
Record State := mkState {
  step : Z;
  categories : list Category;
  isLoading : bool;
  imagePreview : PreviewMap;
  videoPreview : PreviewMap;
  selectedAmenities : list string;
  form : Form;
  notices : list (string * AlertKind);
  requests : list Request;
  readers : list ReaderTask
}.

#[global] Instance State_eq_dec : EqDecision State.
Proof. solve_decision. Defined.

(** [useForm ({ defaultValues })] *)
Definition defaultValues : Form :=
  [ ("amenities", VArr []); ("currency_code", VStr "NGN"); ("country_code", VStr "NG") ].

(** The state the hooks create ([useState], and [useForm] with its
    default values), before the first render has registered any input;
    [mountedState] below is the component after that first render. *)
Definition initialState : State :=
  {| step := 1; categories := []; isLoading := false;
     imagePreview := ∅; videoPreview := ∅; selectedAmenities := [];
     form := defaultValues; notices := []; requests := []; readers := [] |}.

Definition setStep (n : Z) (st : State) : State :=
  mkState n (categories st) (isLoading st) (imagePreview st) (videoPreview st)
    (selectedAmenities st) (form st) (notices st) (requests st) (readers st).

Definition setCategories (c : list Category) (st : State) : State :=
  mkState (step st) c (isLoading st) (imagePreview st) (videoPreview st)
    (selectedAmenities st) (form st) (notices st) (requests st) (readers st).

Definition setIsLoading (b : bool) (st : State) : State :=
  mkState (step st) (categories st) b (imagePreview st) (videoPreview st)
    (selectedAmenities st) (form st) (notices st) (requests st) (readers st).

Definition setImagePreview (p : PreviewMap) (st : State) : State :=
  mkState (step st) (categories st) (isLoading st) p (videoPreview st)
    (selectedAmenities st) (form st) (notices st) (requests st) (readers st).

Definition setVideoPreview (p : PreviewMap) (st : State) : State :=
  mkState (step st) (categories st) (isLoading st) (imagePreview st) p
    (selectedAmenities st) (form st) (notices st) (requests st) (readers st).

Definition setSelectedAmenities (a : list string) (st : State) : State :=
  mkState (step st) (categories st) (isLoading st) (imagePreview st) (videoPreview st)
    a (form st) (notices st) (requests st) (readers st).

Definition setForm (f : Form) (st : State) : State :=
  mkState (step st) (categories st) (isLoading st) (imagePreview st) (videoPreview st)
    (selectedAmenities st) f (notices st) (requests st) (readers st).

Definition setReaders (r : list ReaderTask) (st : State) : State :=
  mkState (step st) (categories st) (isLoading st) (imagePreview st) (videoPreview st)
    (selectedAmenities st) (form st) (notices st) (requests st) r.

(** [setValue] of [useForm], acting on the component. *)
Definition formSet (k : string) (v : Value) (st : State) : State :=
  setForm (setValue k v (form st)) st.

(** [showAlert (message, kind)] of the alert context. *)
Definition showAlert (msg : string) (kind : AlertKind) (st : State) : State :=
  mkState (step st) (categories st) (isLoading st) (imagePreview st) (videoPreview st)
    (selectedAmenities st) (form st) (notices st ++ [(msg, kind)]) (requests st) (readers st).

(** An [axios] call leaving the browser. *)
Definition send (r : Request) (st : State) : State :=
  mkState (step st) (categories st) (isLoading st) (imagePreview st) (videoPreview st)
    (selectedAmenities st) (form st) (notices st) (requests st ++ [r]) (readers st).

Definition imageFields : list string := ["image1"; "image2"; "image3"; "image4"; "image5"].
Definition videoFields : list string := ["video1"; "video2"; "video3"; "video4"; "video5"].
Definition MAX_IMAGE_SIZE : Z := 3 * 1024 * 1024.
Definition MAX_VIDEO_SIZE : Z := 10 * 1024 * 1024.

(** [handleAmenityToggle] *)
Definition handleAmenityToggle (amenity : string) (st : State) : State :=
  let prev := selectedAmenities st in
  let newAmenities :=
    if existsb (String.eqb amenity) prev
    then List.filter (fun a => negb (String.eqb a amenity)) prev
    else prev ++ [amenity] in
  setSelectedAmenities newAmenities (formSet "amenities" (VArr newAmenities) st).

(** [getAuthToken] *)
Definition getAuthToken (env : Env) : option string :=
  if window env then getItem "token" env else None.

(** The body of the answer to [GET /apartment-types]. *)
Record CategoriesBody := mkCategoriesBody {
  cat_success : Value;
  cat_data : list Category
}.

(** [fetchCategories], run once by the mount effect. [server] is how
    the backend settles the request; a body that is [None] stands for
    [response.data] being absent, where reading [.success] throws a
    [TypeError] that the [catch] clause receives. *)
Definition fetchCategories (env : Env) (server : Outcome (option CategoriesBody))
    (st : State) : State :=
  let st :=
    send {| method := GET;
            url := "https://api.rent9ja.com.ng/api/apartment-types";
            headers := [("Authorization", "Bearer " +:+ interpolate (getAuthToken env));
                        ("Accept", "application/json")];
            withCredentials := true;
            body := None |} st in
  match server with
  | Resolved (Some b) =>
      if truthy (cat_success b) then setCategories (cat_data b) st else st
  | Resolved None => st
  | Rejected (ThrownAxios e) =>
      if bool_decide (responseStatus e = Some 401)
      then showAlert "Please login to continue" error st
      else st
  | Rejected (ThrownError _) => st
  end.

Definition maxSizeOf (type : FileType) : Z :=
  match type with image => MAX_IMAGE_SIZE | video => MAX_VIDEO_SIZE end.

(** [handleFileChange (fieldName, type) (event)]; [file] is
    [event.target.files?.[0]]. The part up to [reader.readAsDataURL]. *)
Definition handleFileChange (fieldName : string) (type : FileType)
    (file : option File) (st : State) : State :=
  match file with
  | None => st
  | Some file =>
      let maxSize := maxSizeOf type in
      if file_size file >? maxSize then
        showAlert ("File " +:+ file_name file +:+ " exceeds maximum size limit of "
                     +:+ numToString (maxSize / (1024 * 1024)) +:+ "MB") error st
      else
        let st := formSet fieldName (VFile file) st in
        setReaders (readers st ++ [mkReaderTask fieldName type file]) st
  end.

(** [reader.onloadend] of the [n]-th reader still loading:
    [readerResult] is [reader.result], [blobUrl] what
    [URL.createObjectURL (file)] returns at that moment. *)
Definition onloadend (n : nat) (readerResult blobUrl : string) (st : State) : State :=
  match readers st !! n with
  | None => st
  | Some t =>
      let st := setReaders (delete n (readers st)) st in
      match task_type t with
      | image => setImagePreview (<[task_field t := readerResult]> (imagePreview st)) st
      | video => setVideoPreview (<[task_field t := blobUrl]> (videoPreview st)) st
      end
  end.

(** [removeFile] *)
Definition removeFile (fieldName : string) (type : FileType) (st : State) : State :=
  let st := formSet fieldName VNull st in
  match type with
  | image => setImagePreview (delete fieldName (imagePreview st)) st
  | video => setVideoPreview (delete fieldName (videoPreview st)) st
  end.

(** [Array.some (field => values[field])] over a list of slots. *)
Definition someTruthy (fields : list string) (f : Form) : bool :=
  existsb (fun field => truthy (watch field f)) fields.

Section WithValidator.

(** [trigger (fields)] of [useForm]: the structural validator of the
    form library, run on the named fields of the current values. *)
Variable trigger : list string -> Form -> bool.

(** [handleSubmit] of [useForm] calls its argument only when the
    library's validation of the whole form passes. *)
Variable formValid : Form -> bool.

(** [validateStep]: the verdict, and the state with the notices it
    showed through [showAlert]. ([formState.errors], which [trigger]
    fills and the markup shows under the inputs, is kept by the form
    library and is not part of [State].) *)
Definition validateStep (st : State) : bool * State :=
  match step st with
  | 1 => (trigger ["category_id"; "title"; "number_of_rooms"; "description"] (form st), st)
  | 2 => (trigger ["amount"; "currency_code"; "security_deposit"] (form st), st)
  | 3 => (trigger ["duration"; "duration_type"; "amenities"] (form st), st)
  | 4 => (trigger ["country_code"; "state_code"; "city_code"] (form st), st)
  | 5 =>
      let hasImage := someTruthy imageFields (form st) in
      let hasVideo := someTruthy videoFields (form st) in
      if negb hasImage then
        (false, showAlert "Please upload at least one image" info st)
      else if negb hasVideo then
        (false, showAlert "Please upload at least one video" info st)
      else (true, st)
  | _ => (trigger [] (form st), st)
  end.

(** [nextStep] *)
Definition nextStep (st : State) : State :=
  let '(isValid, st) := validateStep st in
  if isValid then setStep (Z.min (step st + 1) 5) st else st.

(** [prevStep] *)
Definition prevStep (st : State) : State :=
  setStep (Z.max (step st - 1) 1) st.

(** One step of [Object.entries (data).forEach] in [onSubmit]. *)
Definition appendField (amenities : list string) (formData : FormData)
    (entry : string * Value) : FormData :=
  let '(key, value) := entry in
  match value with
  | VFile f => formData ++ [(key, FBlob f)]
  | _ =>
      if String.eqb key "amenities" then
        formData ++ [(key, FText (jsonStringify amenities))]
      else if notNullish value then
        formData ++ [(key, FText (toString value))]
      else formData
  end.

(** The payload [onSubmit] builds from [data] and the
    [selectedAmenities] of the render it runs in. *)
Definition buildFormData (data : Form) (amenities : list string) : FormData :=
  fold_left (appendField amenities) data []
    ++ [("published", FText "false"); ("can_rate", FText "false")].

(** The body of the answer to [POST /apartment]. *)
Record PostBody := mkPostBody {
  post_success : Value
}.

(** The success branch of [onSubmit] after the notice: the fourteen
    [setValue] calls, the two loops over the file slots, and the
    four state setters. *)
Definition resetAfterSuccess (st : State) : State :=
  let st := formSet "category_id" (VNum 0) st in
  let st := formSet "title" (VStr "") st in
  let st := formSet "description" VNull st in
  let st := formSet "number_of_rooms" VNull st in
  let st := formSet "amount" (VNum 0) st in
  let st := formSet "currency_code" (VStr "NGN") st in
  let st := formSet "security_deposit" VNull st in
  let st := formSet "security_deposit_currency_code" VNull st in
  let st := formSet "duration" (VNum 0) st in
  let st := formSet "duration_type" (VStr "month") st in
  let st := formSet "amenities" (VArr []) st in
  let st := formSet "country_code" (VStr "NG") st in
  let st := formSet "state_code" (VStr "") st in
  let st := formSet "city_code" (VStr "") st in
  let st := fold_left (fun st field => formSet field VNull st) imageFields st in
  let st := fold_left (fun st field => formSet field VNull st) videoFields st in
  let st := setImagePreview ∅ st in
  let st := setVideoPreview ∅ st in
  let st := setSelectedAmenities [] st in
  setStep 1 st.

(** The message of the [catch] clause for an Axios error. *)
Definition failureMessage (e : AxiosError) : string :=
  if bool_decide (responseStatus e = Some 401) then
    "Your session has expired. Please login again."
  else if bool_decide (responseStatus e = Some 503) then
    "Service temporarily unavailable. Please try again later."
  else
    match responseMessage e with
    | Some m => if String.eqb m "" then "Failed to add property. Please try again." else m
    | None => "Failed to add property. Please try again."
    end.

(** The request [axios.post] sends. *)
Definition apartmentRequest (token : option string) (formData : FormData) : Request :=
  {| method := POST;
     url := "https://api.rent9ja.com.ng/api/apartment";
     headers := [("Authorization", "Bearer " +:+ interpolate token);
                 ("Accept", "application/json");
                 ("Content-Type", "multipart/form-data")];
     withCredentials := true;
     body := Some formData |}.

(** What follows the [await] in [onSubmit]: the test of the success
    flag, or the [catch] clause. [server] is how the backend settles
    the request; a body that is [None] stands for an absent
    [response.data], where reading [.success] throws a [TypeError],
    which is not an Axios error. *)
Definition settle (server : Outcome (option PostBody)) (st : State) : State :=
  match server with
  | Resolved (Some b) =>
      if truthy (post_success b) then
        resetAfterSuccess (showAlert "Property successfully added!" success st)
      else st
  | Resolved None => st
  | Rejected (ThrownAxios e) => showAlert (failureMessage e) error st
  | Rejected (ThrownError _) => st
  end.

(** [onSubmit (data)], taken as one step, from the call to the end of
    [finally]; [server] is consulted only if the request is sent. *)
Definition onSubmit (env : Env) (data : Form) (server : Outcome (option PostBody))
    (st : State) : State :=
  if negb (step st =? 5) then st
  else
    let hasImage := someTruthy imageFields data in
    let hasVideo := someTruthy videoFields data in
    if negb hasImage || negb hasVideo then
      showAlert "Please upload at least one image and one video" error st
    else
      let st := setIsLoading true st in
      let formData := buildFormData data (selectedAmenities st) in
      let token := getAuthToken env in
      if tokenMissing token then
        let st := showAlert "Please login to add a property" error st in
        let st := setIsLoading false st in
        (* finally *)
        setIsLoading false st
      else
        let st := send (apartmentRequest token formData) st in
        let st := settle server st in
        (* finally *)
        setIsLoading false st.

(** [handleSubmit (onSubmit)], the [onSubmit] handler of the form. *)
Definition handleSubmit (env : Env) (server : Outcome (option PostBody))
    (st : State) : State :=
  if formValid (form st) then onSubmit env (form st) server st else st.

(** *** The component as a transition system *)

(** The fields bound to an input with [register], by the step that
    renders the input. *)
Definition registeredAt (n : Z) : list string :=
  match n with
  | 1 => ["category_id"; "title"; "number_of_rooms"; "description"]
  | 2 => ["amount"; "currency_code"; "security_deposit"]
  | 3 => ["duration"; "duration_type"]
  | 4 => ["country_code"; "state_code"; "city_code"]
  | _ => []
  end.

Inductive Event :=
| EvMount (env : Env) (server : Outcome (option CategoriesBody))
| EvInput (field value : string)
| EvAmenityToggle (amenity : string)
| EvFileChange (fieldName : string) (type : FileType) (file : option File)
| EvLoadEnd (n : nat) (readerResult blobUrl : string)
| EvRemoveFile (fieldName : string) (type : FileType)
| EvNextStep
| EvPrevStep
| EvSubmit (env : Env) (server : Outcome (option PostBody)).

Definition slotsOf (type : FileType) : list string :=
  match type with image => imageFields | video => videoFields end.

Definition previewOf (type : FileType) (st : State) : PreviewMap :=
  match type with image => imagePreview st | video => videoPreview st end.

Definition inList (x : string) (l : list string) : bool :=
  existsb (String.eqb x) l.

(** Whether the markup of the current render offers the control that
    raises the event. *)
Definition enabled (ev : Event) (st : State) : bool :=
  match ev with
  | EvMount _ _ => true
  | EvInput field _ => inList field (registeredAt (step st))
  | EvAmenityToggle amenity => (step st =? 3) && inList amenity AVAILABLE_AMENITIES
  | EvFileChange fieldName type _ => (step st =? 5) && inList fieldName (slotsOf type)
  | EvLoadEnd n _ _ => bool_decide (is_Some (readers st !! n))
  | EvRemoveFile fieldName type =>
      (step st =? 5) && inList fieldName (slotsOf type)
      && match previewOf type st !! fieldName with
         | Some u => negb (String.eqb u "")
         | None => false
         end
  | EvNextStep => step st <? 5
  | EvPrevStep => step st >? 1
  | EvSubmit _ _ => true
  end.

(** The handler each event runs. An input bound with [register]
    stores the text of its control; the values [register] stores when
    a render shows an input for the first time ([registerRendered]
    below) are events [EvInput] of that step as well. *)
Definition handle (ev : Event) (st : State) : State :=
  match ev with
  | EvMount env server => fetchCategories env server st
  | EvInput field value => formSet field (VStr value) st
  | EvAmenityToggle amenity => handleAmenityToggle amenity st
  | EvFileChange fieldName type file => handleFileChange fieldName type file st
  | EvLoadEnd n readerResult blobUrl => onloadend n readerResult blobUrl st
  | EvRemoveFile fieldName type => removeFile fieldName type st
  | EvNextStep => nextStep st
  | EvPrevStep => prevStep st
  | EvSubmit env server => handleSubmit env server st
  end.

(** The states the component can be in. *)
Inductive reachable : State -> Prop :=
| reachable_init : reachable initialState
| reachable_step ev st :
    reachable st -> enabled ev st = true -> reachable (handle ev st).

(** Running a list of events, skipping those not offered. *)
Definition run (evs : list Event) (st : State) : State :=
  fold_left (fun st ev => if enabled ev st then handle ev st else st) evs st.

End WithValidator.

(** *** What a render registers *)

(** The value of the control of a registered input that the user has not
    touched: the first option of the select for [duration_type], the
    empty string for the other inputs (also for the category select,
    whose first option has the empty value). *)
Definition domValue (field : string) : string :=
  if String.eqb field "duration_type" then "day" else "".

(** [register (field)] at the render of its input: a field without a
    value takes the value of its control, a field with a value keeps it
    (and is shown in the control). *)
Definition registerField (st : State) (field : string) : State :=
  match watch field (form st) with
  | VUndefined => formSet field (VStr (domValue field)) st
  | _ => st
  end.

(** The [register] calls of the inputs rendered on the current step. *)
Definition registerRendered (st : State) : State :=
  fold_left registerField (registeredAt (step st)) st.

(** A freshly mounted component: the hooks' initial state, after the
    first render registered the inputs of step 1. *)
Definition mountedState : State := registerRendered initialState.

(** *** Observations on the form, used to state the properties *)

(** The number of slots among [fields] that hold a file. *)
Definition attached (fields : list string) (f : Form) : nat :=
  length (List.filter (fun field => instanceofFile (watch field f)) fields).

(** A slot holds what the interface declares, [File | null], or was
    never set. *)
Definition slotTyped (v : Value) : bool :=
  match v with
  | VUndefined | VNull | VFile _ => true
  | _ => false
  end.

Definition slotsTyped (f : Form) : bool :=
  forallb (fun field => slotTyped (watch field f)) (imageFields ++ videoFields).

(** The entry a field [key] of the values object, holding [value],
    contributes to the payload: a file goes as it is, the key
    [amenities] carries the selected amenities as a JSON list, any
    other value that is neither [null] nor [undefined] goes as its
    text. *)
Inductive payloadEntry (amenities : list string) : string -> Value -> FormEntry -> Prop :=
| payloadEntry_file key f :
    payloadEntry amenities key (VFile f) (FBlob f)
| payloadEntry_amenities value :
    instanceofFile value = false ->
    payloadEntry amenities "amenities" value (FText (jsonStringify amenities))
| payloadEntry_scalar key value :
    instanceofFile value = false -> key <> "amenities" -> notNullish value = true ->
    payloadEntry amenities key value (FText (toString value)).

(** What holds of the component between two events: the step index is
    one of the five steps, no submission is pending, the slots hold
    files or nothing, and the form value of the amenities is the
    selected list. *)
Definition invariant (st : State) : Prop :=
  1 <= step st <= 5
  /\ isLoading st = false
  /\ slotsTyped (form st) = true
  /\ watch "amenities" (form st) = VArr (selectedAmenities st).

End AddProperty.

(** ** Sample data for the scenarios of the specification *)

Module Scenario.

Import Checkout.

(** A plan list with one plan, as in the checkout scenario. *)
Definition basicPlan : PlansInterface :=
  {| id := 1; name := "Basic"; price := 1000; currency := "₦";
     invoice_interval := "month"; description := [] |}.

Definition bankTransfer (sp : option PlansInterface) : GatewayI :=
  {| title := "Bank Transfer"; slug := "bank-transfer";
     component := BankTransfer sp; active := true; icon := BanknoteIcon;
     className := "text-lg font-bold bg-gray-800 text-white rounded hover:shadow-lg" |}.

Import AddProperty.

(** The validators of the form library, taken to accept everything. *)
Definition acceptAll : list string -> Form -> bool := fun _ _ => true.
Definition acceptForm : Form -> bool := fun _ => true.

(** A browser holding a token, and one holding none. *)
Definition loggedIn : Env :=
  {| window := true; localStorage := {[ "token" := "secret" ]} |}.
Definition anonymous : Env :=
  {| window := true; localStorage := ∅ |}.

(** A 2 MB image and a 5 MB video, as in the submission scenario, and
    a 4 MB image and an 11 MB video, which are over the limits. *)
Definition photo : File := mkFile "front.jpg" (2 * 1024 * 1024) 0.
Definition clip : File := mkFile "tour.mp4" (5 * 1024 * 1024) 1.
Definition bigPhoto : File := mkFile "aerial.png" (4 * 1024 * 1024) 2.
Definition bigClip : File := mkFile "walk.mov" (11 * 1024 * 1024) 3.

(** A user filling the wizard: the scalar fields step by step, then
    one image and one video, both previews loaded. *)
Definition fillWizard : list Event :=
  [ EvInput "category_id" "2"; EvInput "title" "Two bedroom flat";
    EvNextStep;
    EvInput "amount" "250000";
    EvNextStep;
    EvInput "duration" "1"; EvInput "duration_type" "year";
    EvAmenityToggle "WiFi"; EvAmenityToggle "Parking";
    EvNextStep;
    EvInput "state_code" "LA"; EvInput "city_code" "IKJ";
    EvNextStep;
    EvFileChange "image1" image (Some photo);
    EvFileChange "video1" video (Some clip);
    EvLoadEnd 0 "data:image/jpeg;base64,AAAA" "";
    EvLoadEnd 0 "" "blob:1" ].

Definition readyState : State :=
  run acceptAll acceptForm fillWizard initialState.

End Scenario.

(** ** The checkout component as a transition system *)

Module CheckoutFlow.

Import Checkout.

(** What the user, or the gateway handler, can do to the component:
    press "Get Started" on a plan card, press a gateway button, or
    (the handler) call [onCompleted]. *)
Inductive Event :=
| EvGetStarted (pl : PlansInterface)
| EvGateway (way : GatewayI)
| EvCompleted (response : Value).

(** Whether the current render offers the control: the plan cards are
    rendered while no plan is selected, the gateway buttons while a plan
    but not both plan and gateway are selected, and the handler is
    mounted once both are. *)
Definition enabled (plans : option (list PlansInterface)) (ev : Event)
    (st : State) : bool :=
  match render plans st, ev with
  | ViewPlanSelection (Some ps), EvGetStarted pl => bool_decide (pl ∈ ps)
  | ViewSelectPaymentMethod _ ways, EvGateway way => bool_decide (way ∈ ways)
  | ViewGateway _, EvCompleted _ => true
  | _, _ => false
  end.

(** The handler each control runs: a plan card passes [pl.id], a
    gateway button passes the slug and the [active] flag of its entry,
    the handler's callback is [setGatewayResponse]. *)
Definition handle (plans : option (list PlansInterface)) (ev : Event)
    (st : State) : State :=
  match ev with
  | EvGetStarted pl => selectedPlanIs plans (id pl) st
  | EvGateway way => clickGateway way st
  | EvCompleted response => setGatewayResponse (Some response) st
  end.

(** The states the checkout can be in, for a given [plans] prop. *)
Inductive reachable (plans : option (list PlansInterface)) : State -> Prop :=
| reachable_init : reachable plans initialState
| reachable_step ev st :
    reachable plans st -> enabled plans ev st = true ->
    reachable plans (handle plans ev st).

End CheckoutFlow.

(** ** Observations on the wizard, used to state further properties *)

Module Wizard.

Import AddProperty.

(** The fields of [PropertyFormData] that are neither a file slot nor
    the amenities. *)
Definition scalarFields : list string :=
  [ "category_id"; "title"; "description"; "number_of_rooms"; "amount";
    "currency_code"; "security_deposit"; "security_deposit_currency_code";
    "duration"; "duration_type"; "country_code"; "state_code"; "city_code" ].

(** A slot of the given type is empty or holds a file within the limit
    of that type. *)
Definition fileWithin (type : FileType) (v : Value) : bool :=
  match v with
  | VUndefined | VNull => true
  | VFile f => file_size f <=? maxSizeOf type
  | _ => false
  end.

(** An entry of the values object agrees with the interface
    [PropertyFormData]: a known key, holding a value of its kind (an
    input bound with [register] holds the text of its control). *)
Definition entryTyped (entry : string * Value) : bool :=
  let '(k, v) := entry in
  if inList k imageFields then fileWithin image v
  else if inList k videoFields then fileWithin video v
  else if String.eqb k "amenities" then
    match v with VArr _ => true | _ => false end
  else
    inList k scalarFields
    && match v with VStr _ | VNum _ | VNull => true | _ => false end.

Definition formTyped (f : Form) : Prop :=
  NoDup (map fst f) /\ forallb entryTyped f = true.

(** The selected amenities are distinct members of the vocabulary, and
    the form holds the same list. *)
Definition amenitiesWellFormed (st : State) : Prop :=
  NoDup (selectedAmenities st)
  /\ (forall a, In a (selectedAmenities st) -> In a AVAILABLE_AMENITIES)
  /\ watch "amenities" (form st) = VArr (selectedAmenities st).

(** A file entry of a payload sits under a slot of its type and is
    within the limit of that type. *)
Definition blobWithin (k : string) (f : File) : Prop :=
  (In k imageFields /\ file_size f <= MAX_IMAGE_SIZE)
  \/ (In k videoFields /\ file_size f <= MAX_VIDEO_SIZE).

(** What is expected of a request that left the component: a [GET]
    goes to the category endpoint; a [POST] goes to the apartment
    endpoint, carries a non-empty bearer token, and its payload has the
    two draft flags, no key twice, and only files within their limits. *)
Definition requestWellFormed (r : Request) : Prop :=
  match method r with
  | GET => url r = "https://api.rent9ja.com.ng/api/apartment-types" /\ body r = None
  | POST =>
      url r = "https://api.rent9ja.com.ng/api/apartment"
      /\ (exists token, token <> "" /\ In ("Authorization", "Bearer " +:+ token) (headers r))
      /\ exists payload,
           body r = Some payload
           /\ In ("published", FText "false") payload
           /\ In ("can_rate", FText "false") payload
           /\ NoDup (map fst payload)
           /\ forall k f, In (k, FBlob f) payload -> blobWithin k f
  end.

(** A preview is only kept under a slot of its own type, and a reader
    only runs for a slot of its own type. *)
Definition previewsWellFormed (st : State) : Prop :=
  (forall k, is_Some (imagePreview st !! k) -> In k imageFields)
  /\ (forall k, is_Some (videoPreview st !! k) -> In k videoFields)
  /\ (forall t, In t (readers st) -> In (task_field t) (slotsOf (task_type t))).




(** An image of exactly 3 MB and a video of exactly 10 MB. *)
Definition limitPhoto : File := mkFile "limit.jpg" (3 * 1024 * 1024) 4.
Definition limitClip : File := mkFile "limit.mp4" (10 * 1024 * 1024) 5.

End Wizard.

(** * Properties of the checkout component *)

Section CheckoutFacts.

Import Checkout Scenario.

Lemma filter_absent (plans : list PlansInterface) (i : Z) :
  (forall p, In p plans -> id p <> i) ->
  List.filter (fun r => id r =? i) plans = [].
Proof.
  induction plans as [|p ps IH]; intros Habs; simpl; [reflexivity|].
  destruct (Z.eqb_spec (id p) i) as [Heq|_].
  - exfalso. apply (Habs p); [now left | exact Heq].
  - apply IH. intros q Hq. apply Habs. now right.
Qed.

Lemma setSelectedPlan_same (st : State) :
  setSelectedPlan (selectedPlan st) st = st.
Proof. now destruct st. Qed.

(** C1, as stated, fails: with the plan list [[basicPlan]] supplied and
    [basicPlan] selected, selecting the absent identifier 2 stores
    [set[0]] of the empty array, that is [undefined], so the selection
    is lost. *)
Lemma selectedPlanIs_absent_changes_selection :
  ~ (forall (plans : list PlansInterface) (i : Z) (st : State),
       (forall p, In p plans -> id p <> i) ->
       selectedPlan (selectedPlanIs (Some plans) i st) = selectedPlan st).
Proof.
  intros H.
  specialize (H [basicPlan] 2 (setSelectedPlan (Some basicPlan) initialState)).
  simpl in H. discriminate H.
  intros p [<-|[]]. simpl. lia.
Qed.

(** With a plan list supplied, an identifier absent from it makes
    [selectedPlanIs] store [undefined]; without a plan list nothing is
    stored. *)
Lemma selectedPlanIs_absent_stores_undefined (plans : list PlansInterface) (i : Z)
    (st : State) :
  (forall p, In p plans -> id p <> i) ->
  selectedPlanIs (Some plans) i st = setSelectedPlan None st.
Proof.
  intros Habs. unfold selectedPlanIs. cbv zeta.
  now rewrite (filter_absent plans i Habs).
Qed.

Lemma selectedPlanIs_no_plans (i : Z) (st : State) :
  selectedPlanIs None i st = st.
Proof. reflexivity. Qed.

(** C1 (amended): for a supplied plan list and an identifier absent
    from it, [selectedPlanIs] leaves [selectedPlan], and the whole
    state, unchanged, provided no plan was selected before (the state
    in which the plan list is offered). *)
Theorem selectedPlanIs_absent (plans : list PlansInterface) (i : Z) (st : State) :
  (forall p, In p plans -> id p <> i) ->
  selectedPlan st = None ->
  selectedPlan (selectedPlanIs (Some plans) i st) = selectedPlan st
  /\ selectedPlanIs (Some plans) i st = st.
Proof.
  intros Habs Hnone.
  rewrite (selectedPlanIs_absent_stores_undefined plans i st Habs).
  assert (Hsame : setSelectedPlan None st = st).
  { rewrite <- Hnone. apply setSelectedPlan_same. }
  rewrite Hsame. split; reflexivity.
Qed.

Lemma selectedPlanIs_absent_witness :
  selectedPlanIs (Some [basicPlan]) 2 initialState = initialState.
Proof.
  refine (proj2 (selectedPlanIs_absent [basicPlan] 2 initialState _ _)).
  - intros p [<-|[]]. simpl. lia.
  - reflexivity.
Defined.

Lemma selectedPaymentMethodIs_inactive (sl : string) (st : State) :
  selectedPaymentMethodIs sl false st
  = alert "Gateway Not Available" (console_log "here" sl false st).
Proof. reflexivity. Qed.

Lemma selectedPaymentMethodIs_active (sl : string) (st : State) :
  selectedPaymentMethodIs sl true st
  = setSelectedGateway
      (head (List.filter (fun r => String.eqb (slug r) sl) (gateways (selectedPlan st))))
      (console_log "here" sl true st).
Proof. reflexivity. Qed.

(** The slugs of the gateway list are pairwise distinct, so the first
    entry [filter] finds for the slug of an entry is that entry. *)
Lemma gateways_lookup (sp : option PlansInterface) (g : GatewayI) :
  In g (gateways sp) ->
  head (List.filter (fun r => String.eqb (slug r) (slug g)) (gateways sp)) = Some g.
Proof.
  intros [<-|[<-|[]]]; reflexivity.
Qed.

Lemma gateways_component_inj (sp : option PlansInterface) (g g' : GatewayI) :
  In g (gateways sp) -> In g' (gateways sp) ->
  component g' = component g -> g' = g.
Proof.
  intros [<-|[<-|[]]] [<-|[<-|[]]]; simpl; intros H; try reflexivity; discriminate H.
Qed.

(** C6: [selectedPaymentMethodIs] with [active = false] leaves
    [selectedGateway] (and [selectedPlan]) unchanged and raises the
    notice, for every slug; with [active = true] and the slug of a
    gateway of the list it stores that gateway, after which, a plan
    being selected, the component renders the handler of that gateway
    and of no other gateway of the list. *)
Theorem gateway_selection :
  (forall (sl : string) (st : State),
      selectedGateway (selectedPaymentMethodIs sl false st) = selectedGateway st
      /\ selectedPlan (selectedPaymentMethodIs sl false st) = selectedPlan st
      /\ alerts (selectedPaymentMethodIs sl false st)
         = alerts st ++ ["Gateway Not Available"])
  /\ (forall (g : GatewayI) (st : State),
         In g (gateways (selectedPlan st)) ->
         let st' := selectedPaymentMethodIs (slug g) true st in
         selectedGateway st' = Some g
         /\ alerts st' = alerts st
         /\ forall plans p, selectedPlan st = Some p ->
              render plans st' = ViewGateway (component g)
              /\ forall g', In g' (gateways (selectedPlan st)) -> g' <> g ->
                   render plans st' <> ViewGateway (component g')).
Proof.
  split.
  - intros sl st. rewrite selectedPaymentMethodIs_inactive. simpl. auto.
  - intros g st Hin st'. subst st'. rewrite selectedPaymentMethodIs_active.
    rewrite (gateways_lookup _ _ Hin).
    split; [reflexivity|]. split; [reflexivity|].
    intros plans p Hp. unfold render. cbn [setSelectedGateway selectedGateway selectedPlan console_log].
    rewrite Hp.
    split; [reflexivity|].
    intros g' Hin' Hne Heq. apply Hne.
    injection Heq as Heq.
    rewrite <- Hp in Hin'.
    exact (gateways_component_inj _ _ _ Hin Hin' (eq_sym Heq)).
Qed.

(** The end-to-end scenario of the checkout: plan 1, then the active
    bank-transfer gateway. *)
Lemma gateway_selection_witness :
  let st := selectedPlanIs (Some [basicPlan]) 1 initialState in
  render (Some [basicPlan]) (selectedPaymentMethodIs "bank-transfer" true st)
  = ViewGateway (BankTransfer (Some basicPlan))
  /\ render (Some [basicPlan]) (selectedPaymentMethodIs "bank-transfer" true st)
     <> ViewGateway (Paystack (Some basicPlan)).
Proof.
  intros st.
  pose proof (proj2 gateway_selection (bankTransfer (Some basicPlan)) st
                (or_introl eq_refl)) as (_ & _ & H).
  destruct (H (Some [basicPlan]) basicPlan eq_refl) as [Hr Hno].
  split; [exact Hr|].
  apply (Hno {| title := "Paystack"; slug := "paystack";
                component := Paystack (Some basicPlan); active := false;
                icon := BankIcon;
                className := "text-lg font-bold bg-blue-200 text-black rounded hover:shadow-lg" |}).
  - right. left. reflexivity.
  - discriminate.
Defined.

(** Clicking a button of the payment-method screen passes the
    gateway's own [active] flag: the inactive Paystack entry is never
    stored by a click. *)
Lemma clickGateway_inactive (way : GatewayI) (st : State) :
  active way = false ->
  selectedGateway (clickGateway way st) = selectedGateway st.
Proof.
  intros Hact. unfold clickGateway. rewrite Hact.
  now rewrite selectedPaymentMethodIs_inactive.
Qed.

End CheckoutFacts.

(** * Properties of the property wizard *)

Section WizardFacts.

Import AddProperty Scenario.

(** ** Form values *)

Lemma watch_setValue (k k' : string) (v : Value) (f : Form) :
  watch k (setValue k' v f) = if String.eqb k' k then v else watch k f.
Proof.
  induction f as [|[k0 v0] rest IH]; simpl.
  - reflexivity.
  - destruct (String.eqb_spec k0 k') as [->|Hne]; simpl.
    + destruct (String.eqb k' k); reflexivity.
    + rewrite IH. destruct (String.eqb_spec k0 k) as [->|_].
      * destruct (String.eqb_spec k' k) as [->|_]; [congruence|reflexivity].
      * reflexivity.
Qed.

Lemma watch_setValue_eq (k : string) (v : Value) (f : Form) :
  watch k (setValue k v f) = v.
Proof. rewrite watch_setValue. now rewrite String.eqb_refl. Qed.

Lemma watch_setValue_ne (k k' : string) (v : Value) (f : Form) :
  k' <> k -> watch k (setValue k' v f) = watch k f.
Proof.
  intros Hne. rewrite watch_setValue.
  destruct (String.eqb_spec k' k); [contradiction|reflexivity].
Qed.

Lemma watch_In (k : string) (f : Form) :
  watch k f <> VUndefined -> In (k, watch k f) f.
Proof.
  induction f as [|[k0 v0] rest IH]; simpl; [congruence|].
  destruct (String.eqb_spec k0 k) as [->|_]; [now left|].
  intros H. right. now apply IH.
Qed.

(** ** File attachment *)

(** The readable form of the two limits. *)
Lemma max_sizes :
  MAX_IMAGE_SIZE = 3145728 /\ MAX_VIDEO_SIZE = 10485760.
Proof. split; reflexivity. Qed.

(** C4: a file larger than the limit of its type (3 MB for an image,
    10 MB for a video) is not stored in the form, starts no reader and
    so yields no preview entry; the only effect of [handleFileChange]
    is one error notice naming the file and the limit. *)
Theorem handleFileChange_oversize (fieldName : string) (type : FileType)
    (file : File) (st : State) :
  (type = image /\ file_size file > 3 * 1024 * 1024)
  \/ (type = video /\ file_size file > 10 * 1024 * 1024) ->
  let st' := handleFileChange fieldName type (Some file) st in
  form st' = form st
  /\ imagePreview st' = imagePreview st
  /\ videoPreview st' = videoPreview st
  /\ readers st' = readers st
  /\ (exists msg, st' = showAlert msg error st)
  /\ notices st' =
       notices st ++
         [("File " +:+ file_name file +:+ " exceeds maximum size limit of "
             +:+ (match type with image => "3" | video => "10" end) +:+ "MB", error)].
Proof.
  intros Hbig st'. subst st'. unfold handleFileChange. cbv zeta.
  assert (Hgt : (file_size file >? maxSizeOf type) = true).
  { apply Z.gtb_gt. destruct Hbig as [[-> H]|[-> H]]; exact H. }
  rewrite Hgt.
  repeat split.
  - eexists. reflexivity.
  - destruct Hbig as [[-> _]|[-> _]]; reflexivity.
Qed.

Lemma handleFileChange_oversize_witness :
  form (handleFileChange "image2" image (Some bigPhoto) readyState) = form readyState
  /\ form (handleFileChange "video2" video (Some bigClip) readyState) = form readyState.
Proof.
  split.
  - refine (proj1 (handleFileChange_oversize "image2" image bigPhoto readyState _)).
    left. split; [reflexivity|]. vm_compute. reflexivity.
  - refine (proj1 (handleFileChange_oversize "video2" video bigClip readyState _)).
    right. split; [reflexivity|]. vm_compute. reflexivity.
Defined.

(** ** Validation of the media step *)

Lemma slotTyped_truthy (v : Value) :
  slotTyped v = true -> truthy v = instanceofFile v.
Proof. destruct v; simpl; congruence. Qed.

Lemma someTruthy_attached (fields : list string) (f : Form) :
  forallb (fun field => slotTyped (watch field f)) fields = true ->
  someTruthy fields f = negb (Nat.eqb (attached fields f) 0).
Proof.
  unfold someTruthy, attached.
  induction fields as [|k ks IH]; simpl; [reflexivity|].
  intros Hty. apply andb_prop in Hty as [Hk Hks].
  rewrite (slotTyped_truthy _ Hk).
  destruct (instanceofFile (watch k f)); simpl; [reflexivity|].
  apply IH, Hks.
Qed.

Lemma slotsTyped_split (f : Form) :
  slotsTyped f = true ->
  forallb (fun field => slotTyped (watch field f)) imageFields = true
  /\ forallb (fun field => slotTyped (watch field f)) videoFields = true.
Proof.
  unfold slotsTyped. rewrite forallb_app. apply andb_prop.
Qed.

Lemma someTruthy_ext (fields : list string) (f g : Form) :
  (forall field, In field fields -> watch field g = watch field f) ->
  someTruthy fields g = someTruthy fields f.
Proof.
  unfold someTruthy. induction fields as [|k ks IH]; simpl; [reflexivity|].
  intros Hsame. rewrite (Hsame k (or_introl eq_refl)).
  rewrite IH; [reflexivity|]. intros k' Hk'. apply Hsame. now right.
Qed.

(** [validateStep] on the media step, in terms of the two tests. *)
Lemma validateStep_media (trigger : list string -> Form -> bool) (st : State) :
  step st = 5 ->
  validateStep trigger st =
    if negb (someTruthy imageFields (form st)) then
      (false, showAlert "Please upload at least one image" info st)
    else if negb (someTruthy videoFields (form st)) then
      (false, showAlert "Please upload at least one video" info st)
    else (true, st).
Proof. intros Hs. unfold validateStep. rewrite Hs. reflexivity. Qed.

(** C3: on step 5 [validateStep] answers [false] exactly when no image
    file or no video file is attached over the five image and five
    video slots; the answer depends on the ten slots only, not on the
    structural validator nor on any other field; a [false] answer
    comes with exactly one notice added to those shown (the request
    for an image when no image is attached, otherwise the request for a
    video) and changes nothing else, a [true] answer comes with none. *)
Theorem validateStep_media_files (trigger : list string -> Form -> bool) (st : State) :
  step st = 5 ->
  slotsTyped (form st) = true ->
  (fst (validateStep trigger st) = false
     <-> attached imageFields (form st) = 0%nat \/ attached videoFields (form st) = 0%nat)
  /\ (fst (validateStep trigger st) = false ->
        exists msg, snd (validateStep trigger st) = showAlert msg info st
                    /\ notices (snd (validateStep trigger st))
                       = notices st ++ [(msg, info)])
  /\ (fst (validateStep trigger st) = true -> snd (validateStep trigger st) = st)
  /\ (forall (trigger' : list string -> Form -> bool) (st' : State),
        step st' = 5 ->
        (forall field, In field (imageFields ++ videoFields) ->
                       watch field (form st') = watch field (form st)) ->
        fst (validateStep trigger' st') = fst (validateStep trigger st))
  /\ (attached imageFields (form st) = 0%nat ->
        notices (snd (validateStep trigger st))
        = notices st ++ [("Please upload at least one image", info)])
  /\ (attached imageFields (form st) <> 0%nat ->
      attached videoFields (form st) = 0%nat ->
        notices (snd (validateStep trigger st))
        = notices st ++ [("Please upload at least one video", info)])
  /\ (fst (validateStep trigger st) = true ->
        notices (snd (validateStep trigger st)) = notices st)
  /\ (form (snd (validateStep trigger st)) = form st
      /\ step (snd (validateStep trigger st)) = step st
      /\ imagePreview (snd (validateStep trigger st)) = imagePreview st
      /\ videoPreview (snd (validateStep trigger st)) = videoPreview st
      /\ requests (snd (validateStep trigger st)) = requests st).
Proof.
  intros Hs Hty. destruct (slotsTyped_split _ Hty) as [Hi Hv].
  rewrite (validateStep_media trigger st Hs).
  pose proof (someTruthy_attached imageFields (form st) Hi) as Ei.
  pose proof (someTruthy_attached videoFields (form st) Hv) as Ev.
  split; [split|split; [|split; [|split; [|split; [|split; [|split]]]]]].
  - rewrite Ei, Ev.
    destruct (Nat.eqb_spec (attached imageFields (form st)) 0) as [Zi|Ni]; simpl;
      [intros _; now left|].
    destruct (Nat.eqb_spec (attached videoFields (form st)) 0) as [Zv|Nv]; simpl;
      [intros _; now right|intros; discriminate].
  - rewrite Ei, Ev. intros [Zi|Zv].
    + rewrite Zi. reflexivity.
    + rewrite Zv. simpl. now destruct (negb _).
  - destruct (someTruthy imageFields (form st)); cbn [negb fst snd];
      [|eexists; split; reflexivity].
    destruct (someTruthy videoFields (form st)); cbn [negb fst snd];
      [intros; discriminate|eexists; split; reflexivity].
  - destruct (someTruthy imageFields (form st)); cbn [negb fst snd]; [|intros; discriminate].
    destruct (someTruthy videoFields (form st)); cbn [negb fst snd]; [reflexivity|intros; discriminate].
  - intros trigger' st' Hs' Hsame.
    rewrite (validateStep_media trigger' st' Hs').
    rewrite (someTruthy_ext imageFields (form st) (form st')),
            (someTruthy_ext videoFields (form st) (form st')).
    + destruct (someTruthy imageFields (form st)); cbn [negb fst snd]; [|reflexivity].
      destruct (someTruthy videoFields (form st)); reflexivity.
    + intros k Hk. apply Hsame, in_or_app. now right.
    + intros k Hk. apply Hsame, in_or_app. now left.
  - intros Zi. rewrite Ei, Zi. reflexivity.
  - intros Ni Zv. rewrite Ei, Ev, Zv.
    destruct (Nat.eqb_spec (attached imageFields (form st)) 0) as [Zi|_];
      [contradiction|]. reflexivity.
  - destruct (someTruthy imageFields (form st)); cbn [negb fst snd]; [|intros; discriminate].
    destruct (someTruthy videoFields (form st)); cbn [negb fst snd]; [reflexivity|intros; discriminate].
  - destruct (someTruthy imageFields (form st)); cbn [negb fst snd]; [|repeat split].
    destruct (someTruthy videoFields (form st)); repeat split.
Qed.

Lemma validateStep_media_files_witness :
  (fst (validateStep acceptAll readyState) = false
     <-> attached imageFields (form readyState) = 0%nat
         \/ attached videoFields (form readyState) = 0%nat)
  /\ (fst (validateStep acceptAll (removeFile "image1" image readyState)) = false
        <-> attached imageFields (form (removeFile "image1" image readyState)) = 0%nat
            \/ attached videoFields (form (removeFile "image1" image readyState)) = 0%nat)
  /\ notices (snd (validateStep acceptAll (removeFile "image1" image readyState)))
     = notices (removeFile "image1" image readyState)
       ++ [("Please upload at least one image", info)].
Proof.
  split; [|split].
  - refine (proj1 (validateStep_media_files acceptAll readyState _ _)); reflexivity.
  - refine (proj1 (validateStep_media_files acceptAll
                     (removeFile "image1" image readyState) _ _)); reflexivity.
  - refine (proj1 (proj2 (proj2 (proj2 (proj2
      (validateStep_media_files acceptAll (removeFile "image1" image readyState) _ _)))))
      _); reflexivity.
Defined.

(** ** The invariant of the wizard *)

Ltac watch_compute :=
  cbn -[watch setValue]; rewrite ?watch_setValue; cbn -[watch setValue].

Lemma inList_In (x : string) (l : list string) :
  inList x l = true <-> In x l.
Proof.
  unfold inList. rewrite existsb_exists. split.
  - intros (y & Hy & Heq). apply String.eqb_eq in Heq. now subst.
  - intros Hin. exists x. split; [exact Hin|apply String.eqb_refl].
Qed.

Lemma slotsTyped_setValue (k : string) (v : Value) (f : Form) :
  slotsTyped f = true ->
  slotTyped v = true \/ ~ In k (imageFields ++ videoFields) ->
  slotsTyped (setValue k v f) = true.
Proof.
  unfold slotsTyped. rewrite !forallb_forall. intros Hf Hk s Hs.
  rewrite watch_setValue. destruct (String.eqb_spec k s) as [->|_].
  - destruct Hk as [Hv|Hout]; [exact Hv|contradiction].
  - apply Hf, Hs.
Qed.

Lemma registered_not_slot (n : Z) (field : string) :
  inList field (registeredAt n) = true ->
  ~ In field (imageFields ++ videoFields) /\ field <> "amenities".
Proof.
  intros Hreg. apply inList_In in Hreg.
  assert (Hall : In field
            ["category_id"; "title"; "number_of_rooms"; "description"; "amount";
             "currency_code"; "security_deposit"; "duration"; "duration_type";
             "country_code"; "state_code"; "city_code"]).
  { unfold registeredAt in Hreg.
    repeat match type of Hreg with
           | context [match ?x with _ => _ end] => destruct x
           end; simpl in Hreg |- *; tauto. }
  clear Hreg. simpl in Hall.
  repeat (destruct Hall as [<-|Hall]; [split; [simpl; intuition discriminate|discriminate]|]).
  contradiction.
Qed.

Lemma slot_not_amenities (type : FileType) (fieldName : string) :
  inList fieldName (slotsOf type) = true ->
  In fieldName (imageFields ++ videoFields) /\ fieldName <> "amenities".
Proof.
  intros Hin. apply inList_In in Hin.
  destruct type; simpl in Hin;
    repeat (destruct Hin as [<-|Hin]; [split; [simpl; tauto|discriminate]|]);
    contradiction.
Qed.

Lemma reset_slot (st : State) (k : string) :
  In k (imageFields ++ videoFields) ->
  watch k (form (resetAfterSuccess st)) = VNull.
Proof.
  intros Hin. simpl in Hin.
  repeat (destruct Hin as [<-|Hin]; [unfold resetAfterSuccess; watch_compute; reflexivity|]).
  contradiction.
Qed.

Lemma form_setIsLoading (b : bool) (st : State) :
  form (setIsLoading b st) = form st.
Proof. reflexivity. Qed.

Lemma invariant_reset (st : State) :
  invariant (setIsLoading false (resetAfterSuccess st)).
Proof.
  unfold invariant. split; [simpl; lia|]. split; [reflexivity|]. split.
  - unfold slotsTyped. apply forallb_forall. intros k Hk.
    rewrite form_setIsLoading. now rewrite reset_slot.
  - rewrite form_setIsLoading. unfold resetAfterSuccess. watch_compute. reflexivity.
Qed.

Lemma invariant_same (st st' : State) :
  invariant st ->
  step st' = step st -> isLoading st' = false -> form st' = form st ->
  selectedAmenities st' = selectedAmenities st ->
  invariant st'.
Proof.
  unfold invariant. intros (Hs & Hl & Hf & Ha) Es El Ef Ea.
  rewrite Es, El, Ef, Ea. auto.
Qed.

Lemma settle_cases (server : Outcome (option PostBody)) (st : State) :
  (exists b, server = Resolved (Some b) /\ truthy (post_success b) = true
             /\ settle server st
                = resetAfterSuccess (showAlert "Property successfully added!" success st))
  \/ (exists msg, settle server st = showAlert msg error st)
  \/ settle server st = st.
Proof.
  destruct server as [[b|]|[e|m]]; simpl.
  - destruct (truthy (post_success b)) eqn:Hb.
    + left. exists b. auto.
    + right. now right.
  - right. now right.
  - right. left. eexists. reflexivity.
  - right. now right.
Qed.

Lemma invariant_onSubmit (env : Env) (server : Outcome (option PostBody)) (st : State) :
  invariant st -> invariant (onSubmit env (form st) server st).
Proof.
  intros Hinv. unfold onSubmit.
  destruct (negb (step st =? 5)); [exact Hinv|]. cbv zeta.
  destruct (negb (someTruthy imageFields (form st))
            || negb (someTruthy videoFields (form st))).
  { apply (invariant_same st); auto. apply Hinv. }
  destruct (tokenMissing (getAuthToken env)).
  { apply (invariant_same st); auto. }
  set (st1 := send _ _).
  destruct (settle_cases server st1) as [(b & _ & _ & ->)|[(msg & ->)| ->]].
  - apply invariant_reset.
  - apply (invariant_same st); auto.
  - apply (invariant_same st); auto.
Qed.

Lemma validateStep_frame (trigger : list string -> Form -> bool) (st : State) :
  validateStep trigger st = (fst (validateStep trigger st), st)
  \/ exists msg, validateStep trigger st = (false, showAlert msg info st).
Proof.
  unfold validateStep.
  repeat match goal with
         | |- context [match ?x with _ => _ end] => destruct x
         end; simpl; eauto.
Qed.

Lemma step_validateStep (trigger : list string -> Form -> bool) (st : State) :
  step (snd (validateStep trigger st)) = step st.
Proof.
  destruct (validateStep_frame trigger st) as [->|(msg & ->)]; reflexivity.
Qed.

Lemma nextStep_step (trigger : list string -> Form -> bool) (st : State) :
  step (nextStep trigger st)
  = if fst (validateStep trigger st) then Z.min (step st + 1) 5 else step st.
Proof.
  unfold nextStep. pose proof (step_validateStep trigger st) as Hs.
  destruct (validateStep trigger st) as [isValid st1]. simpl in *.
  destruct isValid; simpl; congruence.
Qed.

Lemma invariant_nextStep (trigger : list string -> Form -> bool) (st : State) :
  invariant st -> invariant (nextStep trigger st).
Proof.
  intros Hinv. pose proof (nextStep_step trigger st) as Hstep.
  unfold nextStep in *.
  destruct (validateStep_frame trigger st) as [E|(msg & E)]; rewrite E in *;
    simpl in Hstep.
  - destruct (fst (validateStep trigger st)).
    + destruct Hinv as (Hs & Hl & Hf & Ha). unfold invariant. simpl. repeat split; auto; lia.
    + exact Hinv.
  - apply (invariant_same st); auto. apply Hinv.
Qed.

Lemma fetchCategories_frame (env : Env) (server : Outcome (option CategoriesBody))
    (st : State) :
  step (fetchCategories env server st) = step st
  /\ isLoading (fetchCategories env server st) = isLoading st
  /\ form (fetchCategories env server st) = form st
  /\ selectedAmenities (fetchCategories env server st) = selectedAmenities st.
Proof.
  unfold fetchCategories. destruct server as [[b|]|[e|m]]; cbv zeta;
    repeat match goal with |- context [if ?c then _ else _] => destruct c end;
    simpl; auto.
Qed.

Lemma invariant_handle (trigger : list string -> Form -> bool)
    (formValid : Form -> bool) (ev : Event) (st : State) :
  invariant st -> enabled ev st = true -> invariant (handle trigger formValid ev st).
Proof.
  intros Hinv Hen. destruct ev as [env server|field value|amenity|fieldName type file
                                  |n readerResult blobUrl|fieldName type| | |env server];
    simpl in *.
  - (* mount *)
    destruct (fetchCategories_frame env server st) as (Es & El & Ef & Ea).
    apply (invariant_same st); auto. rewrite El. apply Hinv.
  - (* input *)
    destruct (registered_not_slot _ _ Hen) as [Hns Hna].
    destruct Hinv as (Hs & Hl & Hf & Ha). unfold invariant. simpl.
    repeat split; auto; try lia.
    + apply slotsTyped_setValue; auto.
    + rewrite watch_setValue_ne; auto.
  - (* amenity *)
    destruct Hinv as (Hs & Hl & Hf & Ha). unfold invariant, handleAmenityToggle.
    simpl. repeat split; auto; try lia.
    + apply slotsTyped_setValue; auto. right. simpl. intuition discriminate.
    + apply watch_setValue_eq.
  - (* file chosen *)
    apply andb_prop in Hen as [_ Hslot].
    destruct (slot_not_amenities _ _ Hslot) as [_ Hna].
    unfold handleFileChange. destruct file as [file|]; [|exact Hinv].
    cbv zeta. destruct (file_size file >? maxSizeOf type).
    { apply (invariant_same st); auto. apply Hinv. }
    destruct Hinv as (Hs & Hl & Hf & Ha). unfold invariant. simpl.
    repeat split; auto; try lia.
    + apply slotsTyped_setValue; auto.
    + rewrite watch_setValue_ne; auto.
  - (* preview loaded *)
    unfold onloadend. destruct (readers st !! n) as [t|]; [|exact Hinv].
    apply (invariant_same st); auto; destruct (task_type t); try reflexivity;
      simpl; apply Hinv.
  - (* file removed *)
    apply andb_prop in Hen as [Hen _]. apply andb_prop in Hen as [_ Hslot].
    destruct (slot_not_amenities _ _ Hslot) as [_ Hna].
    destruct Hinv as (Hs & Hl & Hf & Ha). unfold invariant, removeFile.
    destruct type; simpl; repeat split; auto; try lia;
      try (apply slotsTyped_setValue; auto); rewrite watch_setValue_ne; auto.
  - apply invariant_nextStep, Hinv.
  - destruct Hinv as (Hs & Hl & Hf & Ha). unfold invariant. simpl.
    repeat split; auto; lia.
  - unfold handleSubmit. destruct (formValid (form st)); [|exact Hinv].
    apply invariant_onSubmit, Hinv.
Qed.

Lemma invariant_initial : invariant initialState.
Proof. unfold invariant. simpl. repeat split; lia. Qed.

Lemma reachable_invariant (trigger : list string -> Form -> bool)
    (formValid : Form -> bool) (st : State) :
  reachable trigger formValid st -> invariant st.
Proof.
  induction 1 as [|ev st Hreach IH Hen].
  - apply invariant_initial.
  - apply invariant_handle; assumption.
Qed.

(** ** Navigation between the steps *)

Lemma reachable_run (trigger : list string -> Form -> bool) (formValid : Form -> bool)
    (evs : list Event) (st : State) :
  reachable trigger formValid st ->
  reachable trigger formValid (run trigger formValid evs st).
Proof.
  unfold run. revert st. induction evs as [|ev evs IH]; intros st Hst; simpl.
  - exact Hst.
  - apply IH. destruct (enabled ev st) eqn:Hen; [|exact Hst].
    now apply reachable_step.
Qed.

Lemma reachable_readyState : reachable acceptAll acceptForm readyState.
Proof. apply reachable_run, reachable_init. Qed.

(** C9: [nextStep] moves the step index to [min (step + 1, 5)] when
    [validateStep] answers [true] and leaves it otherwise, so below
    step 5 (where the Next button is offered) it advances by exactly
    one if and only if the validation passes, and it never goes past 5;
    [prevStep] runs no validation and moves the index to
    [max (step - 1, 1)], so above step 1 (where the Previous button is
    offered) it always goes back by exactly one, and never below 1;
    in every reachable state the step index is between 1 and 5. *)
Theorem step_navigation (trigger : list string -> Form -> bool)
    (formValid : Form -> bool) :
  (forall st, step (nextStep trigger st)
              = if fst (validateStep trigger st) then Z.min (step st + 1) 5 else step st)
  /\ (forall st, step st < 5 ->
        (step (nextStep trigger st) = step st + 1 <-> fst (validateStep trigger st) = true))
  /\ (forall st, step st <= 5 -> step (nextStep trigger st) <= 5)
  /\ (forall st, prevStep st = setStep (Z.max (step st - 1) 1) st)
  /\ (forall st, 1 < step st -> step (prevStep st) = step st - 1)
  /\ (forall st, 1 <= step (prevStep st))
  /\ (forall st, reachable trigger formValid st -> 1 <= step st <= 5).
Proof.
  split; [|split; [|split; [|split; [|split; [|split]]]]].
  - apply nextStep_step.
  - intros st Hlt. rewrite nextStep_step.
    destruct (fst (validateStep trigger st)); split; intros H; try reflexivity; lia.
  - intros st Hle. rewrite nextStep_step.
    destruct (fst (validateStep trigger st)); lia.
  - reflexivity.
  - intros st Hgt. simpl. lia.
  - intros st. simpl. lia.
  - intros st Hreach. apply (reachable_invariant _ _ _ Hreach).
Qed.

Lemma step_navigation_witness :
  (step (nextStep acceptAll initialState) = step initialState + 1
     <-> fst (validateStep acceptAll initialState) = true)
  /\ step (nextStep acceptAll readyState) <= 5
  /\ step (prevStep readyState) = step readyState - 1
  /\ 1 <= step readyState <= 5.
Proof.
  pose proof (step_navigation acceptAll acceptForm) as (_ & Hnext & Hle & _ & Hprev & _ & Hrange).
  split; [|split; [|split]].
  - apply (Hnext initialState). reflexivity.
  - apply (Hle readyState). vm_compute. discriminate.
  - apply (Hprev readyState). reflexivity.
  - apply (Hrange readyState). apply reachable_readyState.
Defined.

(** ** Submission *)

Lemma onSubmit_sent (env : Env) (data : Form) (server : Outcome (option PostBody))
    (st : State) :
  step st = 5 ->
  someTruthy imageFields data = true ->
  someTruthy videoFields data = true ->
  tokenMissing (getAuthToken env) = false ->
  onSubmit env data server st
  = setIsLoading false
      (settle server
         (send (apartmentRequest (getAuthToken env)
                  (buildFormData data (selectedAmenities st)))
            (setIsLoading true st))).
Proof.
  intros Hs Hi Hv Ht. unfold onSubmit. rewrite Hs, Hi, Hv. cbv zeta.
  change (negb (5 =? 5)) with false. cbn [negb orb]. rewrite Ht. reflexivity.
Qed.

Lemma onSubmit_no_token (env : Env) (data : Form) (server : Outcome (option PostBody))
    (st : State) :
  step st = 5 ->
  someTruthy imageFields data = true ->
  someTruthy videoFields data = true ->
  tokenMissing (getAuthToken env) = true ->
  onSubmit env data server st
  = setIsLoading false
      (setIsLoading false
         (showAlert "Please login to add a property" error (setIsLoading true st))).
Proof.
  intros Hs Hi Hv Ht. unfold onSubmit. rewrite Hs, Hi, Hv. cbv zeta.
  change (negb (5 =? 5)) with false. cbn [negb orb]. rewrite Ht. reflexivity.
Qed.

Lemma onSubmit_no_token_requests (env : Env) (data : Form)
    (server : Outcome (option PostBody)) (st : State) :
  tokenMissing (getAuthToken env) = true ->
  requests (onSubmit env data server st) = requests st.
Proof.
  intros Ht. unfold onSubmit. cbv zeta. rewrite Ht.
  destruct (negb (step st =? 5)); [reflexivity|].
  destruct (negb (someTruthy imageFields data) || negb (someTruthy videoFields data));
    reflexivity.
Qed.

Lemma getAuthToken_missing (env : Env) :
  tokenMissing (getItem "token" env) = true ->
  tokenMissing (getAuthToken env) = true.
Proof. unfold getAuthToken. destruct (window env); [tauto|reflexivity]. Qed.

Lemma requests_settle (server : Outcome (option PostBody)) (st : State) :
  requests (settle server st) = requests st.
Proof.
  destruct server as [[b|]|[e|m]]; simpl; try reflexivity.
  destruct (truthy (post_success b)); reflexivity.
Qed.

(** C8, as stated, fails for the category fetch: [fetchCategories]
    does not look at the token before calling [axios.get]; in a browser
    without a token the request leaves with the header
    [Authorization: Bearer null]. *)
Lemma fetchCategories_sends_without_token :
  ~ (forall (env : Env) (server : Outcome (option CategoriesBody)) (st : State),
       getItem "token" env = None ->
       requests (fetchCategories env server st) = requests st).
Proof.
  intros H.
  specialize (H anonymous (Resolved None) initialState eq_refl).
  discriminate H.
Qed.

(** C8 (amended): for the subscription fetch and the property
    submission a missing (or empty) token in browser-local storage
    short-circuits the call: [getUserSubscriptions] sends no request
    and throws; [onSubmit] sends no request and, once past its step
    and file-presence guards, reports the login notice. *)
Theorem token_absent_short_circuits (baseURL : string) (D : Type)
    (page : option Z) (search : option string) (backend : Outcome D)
    (env : Env) (data : Form) (server : Outcome (option PostBody)) (st : State) :
  tokenMissing (getItem "token" env) = true ->
  (fst (Subscriptions.getUserSubscriptions baseURL D page search env backend) = []
   /\ exists msg,
        snd (Subscriptions.getUserSubscriptions baseURL D page search env backend)
        = Rejected (ThrownError msg))
  /\ requests (onSubmit env data server st) = requests st
  /\ (step st = 5 ->
      someTruthy imageFields data = true ->
      someTruthy videoFields data = true ->
      notices (onSubmit env data server st)
      = notices st ++ [("Please login to add a property", error)]).
Proof.
  intros Ht. split; [|split].
  - unfold Subscriptions.getUserSubscriptions. cbv zeta.
    destruct (window env); simpl; [rewrite Ht|]; simpl; eauto.
  - apply onSubmit_no_token_requests, getAuthToken_missing, Ht.
  - intros Hs Hi Hv.
    rewrite (onSubmit_no_token env data server st Hs Hi Hv
               (getAuthToken_missing env Ht)).
    reflexivity.
Qed.

Lemma token_absent_short_circuits_witness :
  fst (Subscriptions.getUserSubscriptions "https://api.rent9ja.com.ng/api" unit
         None None anonymous (Resolved tt)) = []
  /\ requests (onSubmit anonymous (form readyState)
                 (Resolved (Some (mkPostBody (VBool true)))) readyState)
     = requests readyState.
Proof.
  pose proof (token_absent_short_circuits "https://api.rent9ja.com.ng/api" unit
                None None (Resolved tt) anonymous (form readyState)
                (Resolved (Some (mkPostBody (VBool true)))) readyState eq_refl)
    as ((Hsub & _) & Hreq & _).
  split; [exact Hsub|exact Hreq].
Defined.

Lemma onSubmit_rejected (env : Env) (data : Form) (e : AxiosError) (st : State) :
  step st = 5 ->
  someTruthy imageFields data = true ->
  someTruthy videoFields data = true ->
  tokenMissing (getAuthToken env) = false ->
  onSubmit env data (Rejected (ThrownAxios e)) st
  = setIsLoading false
      (showAlert (failureMessage e) error
         (send (apartmentRequest (getAuthToken env)
                  (buildFormData data (selectedAmenities st)))
            (setIsLoading true st))).
Proof. intros Hs Hi Hv Ht. now rewrite onSubmit_sent. Qed.

(** C7: when the submission request fails with an Axios error, exactly
    one error notice is shown, chosen by the HTTP status: 401 gives the
    session-expired text, 503 the retry-later text, anything else
    (another status, or no response at all) the message of the server
    if it sent a non-empty one and the generic text otherwise. The
    form, the previews, the amenities and the step are left as they
    were, and the one request sent is the only one. *)
Theorem onSubmit_failure_classified (env : Env) (data : Form) (e : AxiosError)
    (st : State) :
  step st = 5 ->
  someTruthy imageFields data = true ->
  someTruthy videoFields data = true ->
  tokenMissing (getAuthToken env) = false ->
  let st' := onSubmit env data (Rejected (ThrownAxios e)) st in
  (responseStatus e = Some 401 ->
     notices st' = notices st ++ [("Your session has expired. Please login again.", error)])
  /\ (responseStatus e = Some 503 ->
        notices st' = notices st
          ++ [("Service temporarily unavailable. Please try again later.", error)])
  /\ (responseStatus e <> Some 401 -> responseStatus e <> Some 503 ->
        (forall m, responseMessage e = Some m -> m <> "" ->
                   notices st' = notices st ++ [(m, error)])
        /\ (responseMessage e = None \/ responseMessage e = Some "" ->
              notices st' = notices st
                ++ [("Failed to add property. Please try again.", error)]))
  /\ (form st' = form st /\ step st' = step st
      /\ imagePreview st' = imagePreview st /\ videoPreview st' = videoPreview st
      /\ selectedAmenities st' = selectedAmenities st)
  /\ requests st' = requests st
       ++ [apartmentRequest (getAuthToken env) (buildFormData data (selectedAmenities st))].
Proof.
  intros Hs Hi Hv Ht st'. subst st'.
  rewrite (onSubmit_rejected env data e st Hs Hi Hv Ht).
  cbn [notices form step imagePreview videoPreview selectedAmenities requests
       setIsLoading showAlert send].
  unfold failureMessage.
  split; [|split; [|split; [|split]]].
  - intros ->. reflexivity.
  - intros ->. reflexivity.
  - intros H401 H503.
    rewrite (bool_decide_eq_false_2 _ H401), (bool_decide_eq_false_2 _ H503).
    split.
    + intros m -> Hm. destruct (String.eqb_spec m ""); [contradiction|reflexivity].
    + intros [-> | ->]; reflexivity.
  - repeat split.
  - reflexivity.
Qed.

Lemma onSubmit_failure_classified_witness :
  notices (onSubmit loggedIn (form readyState)
             (Rejected (ThrownAxios (mkAxiosError (Some (mkErrorResponse 401 None)))))
             readyState)
  = notices readyState ++ [("Your session has expired. Please login again.", error)]
  /\ notices (onSubmit loggedIn (form readyState)
                (Rejected (ThrownAxios
                   (mkAxiosError (Some (mkErrorResponse 422 (Some "The title is too long."))))))
                readyState)
     = notices readyState ++ [("The title is too long.", error)].
Proof.
  split.
  - refine (proj1 (onSubmit_failure_classified loggedIn (form readyState)
                     (mkAxiosError (Some (mkErrorResponse 401 None))) readyState
                     _ _ _ _) _); reflexivity.
  - refine (proj1 (proj1 (proj2 (proj2
             (onSubmit_failure_classified loggedIn (form readyState)
                (mkAxiosError (Some (mkErrorResponse 422 (Some "The title is too long."))))
                readyState _ _ _ _))) _ _) "The title is too long." _ _);
      try reflexivity; discriminate.
Defined.

(** C10: when the request is answered but the success flag of the
    body is falsy, [onSubmit] shows no notice and leaves the form, both
    preview maps, the amenities and the step as they were; and every
    submission that passes the step and file guards ends with
    [isLoading = false], however the request settles and whether or
    not a token is present, as does every submission started while
    [isLoading] is [false]. *)
Theorem onSubmit_falsy_success_frame :
  (forall (env : Env) (data : Form) (b : PostBody) (st : State),
      step st = 5 ->
      someTruthy imageFields data = true ->
      someTruthy videoFields data = true ->
      tokenMissing (getAuthToken env) = false ->
      truthy (post_success b) = false ->
      let st' := onSubmit env data (Resolved (Some b)) st in
      notices st' = notices st
      /\ form st' = form st
      /\ imagePreview st' = imagePreview st
      /\ videoPreview st' = videoPreview st
      /\ selectedAmenities st' = selectedAmenities st
      /\ step st' = step st)
  /\ (forall (env : Env) (data : Form) (server : Outcome (option PostBody)) (st : State),
        step st = 5 ->
        someTruthy imageFields data = true ->
        someTruthy videoFields data = true ->
        isLoading (onSubmit env data server st) = false)
  /\ (forall (env : Env) (data : Form) (server : Outcome (option PostBody)) (st : State),
        isLoading st = false ->
        isLoading (onSubmit env data server st) = false).
Proof.
  assert (Hpast : forall env data server st,
             step st = 5 ->
             someTruthy imageFields data = true ->
             someTruthy videoFields data = true ->
             isLoading (onSubmit env data server st) = false).
  { intros env data server st Hs Hi Hv.
    destruct (tokenMissing (getAuthToken env)) eqn:Ht.
    - now rewrite onSubmit_no_token.
    - now rewrite onSubmit_sent. }
  split; [|split].
  - intros env data b st Hs Hi Hv Ht Hb st'. subst st'.
    rewrite (onSubmit_sent env data _ st Hs Hi Hv Ht).
    unfold settle. rewrite Hb. repeat split.
  - exact Hpast.
  - intros env data server st Hl.
    destruct (Z.eqb_spec (step st) 5) as [Hs|Hs].
    + destruct (someTruthy imageFields data) eqn:Hi;
        [destruct (someTruthy videoFields data) eqn:Hv|].
      * now apply Hpast.
      * unfold onSubmit. rewrite Hs, Hi, Hv. exact Hl.
      * unfold onSubmit. rewrite Hs, Hi. exact Hl.
    + unfold onSubmit. apply Z.eqb_neq in Hs. rewrite Hs. exact Hl.
Qed.

Lemma onSubmit_falsy_success_frame_witness :
  notices (onSubmit loggedIn (form readyState)
             (Resolved (Some (mkPostBody (VBool false)))) readyState)
  = notices readyState
  /\ isLoading (onSubmit anonymous (form readyState) (Resolved None) readyState) = false
  /\ isLoading (onSubmit loggedIn (form initialState)
                  (Rejected (ThrownError "offline")) initialState) = false.
Proof.
  pose proof onSubmit_falsy_success_frame as (Hframe & Hpast & Hidle).
  split; [|split].
  - refine (proj1 (Hframe loggedIn (form readyState) (mkPostBody (VBool false))
                     readyState _ _ _ _ _)); reflexivity.
  - apply Hpast; reflexivity.
  - apply Hidle. reflexivity.
Defined.

(** ** The multipart payload *)

Lemma appendField_spec (amenities : list string) (formData : FormData)
    (key : string) (value : Value) (k : string) (e : FormEntry) :
  In (k, e) (appendField amenities formData (key, value))
  <-> In (k, e) formData \/ (k = key /\ payloadEntry amenities key value e).
Proof.
  assert (Hlast : forall x : string * FormEntry,
             In (k, e) (formData ++ [x]) <-> In (k, e) formData \/ x = (k, e)).
  { intros x. rewrite in_app_iff. simpl. tauto. }
  unfold appendField.
  destruct value as [| |b|n|s|f|l];
    try (destruct (String.eqb_spec key "amenities") as [->|Hkey];
         cbn [notNullish]);
    rewrite ?Hlast; split;
    try (intros [H|H]; [now left|]; injection H as <- <-; right;
         split; [reflexivity|]; now constructor);
    try (intros [H|[-> H]]; [now left|]; inversion H; subst;
         try discriminate; try contradiction; now right);
    try (intros H; now left);
    try (intros [H|[-> H]]; [exact H|]; inversion H; subst;
         try discriminate; contradiction).
Qed.

Lemma fold_appendField_spec (amenities : list string) (data : Form)
    (formData : FormData) (k : string) (e : FormEntry) :
  In (k, e) (fold_left (appendField amenities) data formData)
  <-> In (k, e) formData
      \/ exists value, In (k, value) data /\ payloadEntry amenities k value e.
Proof.
  revert formData. induction data as [|[key value] rest IH]; intros formData;
    cbn [fold_left].
  - split; [now left|]. intros [H|(v & [] & _)]. exact H.
  - rewrite IH, appendField_spec. split.
    + intros [[H|[-> H]]|(v & Hv & H)].
      * now left.
      * right. exists value. split; [now left|exact H].
      * right. exists v. split; [now right|exact H].
    + intros [H|(v & [Heq|Hv] & H)].
      * left. now left.
      * injection Heq as -> ->. left. right. split; [reflexivity|exact H].
      * right. exists v. split; assumption.
Qed.

Lemma buildFormData_spec (amenities : list string) (data : Form)
    (k : string) (e : FormEntry) :
  In (k, e) (buildFormData data amenities)
  <-> (exists value, In (k, value) data /\ payloadEntry amenities k value e)
      \/ (k, e) = ("published", FText "false")
      \/ (k, e) = ("can_rate", FText "false").
Proof.
  unfold buildFormData. rewrite in_app_iff, fold_appendField_spec. simpl.
  split.
  - intros [[[]|H]|[H|[H|[]]]]; auto.
  - intros [H|[H|H]]; auto.
Qed.

(** C5, as stated, fails: a submission on step 5 with an image and a
    video present sends no request at all when the browser holds no
    token. *)
Lemma onSubmit_without_token_sends_nothing :
  ~ (forall (env : Env) (data : Form) (server : Outcome (option PostBody)) (st : State),
       step st = 5 ->
       someTruthy imageFields data = true ->
       someTruthy videoFields data = true ->
       length (requests (onSubmit env data server st)) = S (length (requests st))).
Proof.
  intros H.
  specialize (H anonymous (form readyState) (Resolved None) readyState
                eq_refl eq_refl eq_refl).
  vm_compute in H. discriminate H.
Qed.

(** C5 (amended): a submission on step 5 with at least one image and
    one video present, in a browser holding a token, sends exactly one
    request, a multipart POST; its payload consists of one entry for
    every file of the form, the selected amenities as a JSON list
    under the key of the form's [amenities] field, the text of every
    other field that is neither [null] nor [undefined], and the two
    entries [published = false] and [can_rate = false], and nothing
    else; a field that is [null] or [undefined] contributes nothing. *)
Theorem onSubmit_payload (env : Env) (data : Form)
    (server : Outcome (option PostBody)) (st : State) :
  step st = 5 ->
  someTruthy imageFields data = true ->
  someTruthy videoFields data = true ->
  tokenMissing (getAuthToken env) = false ->
  exists (req : Request) (payload : FormData),
    requests (onSubmit env data server st) = requests st ++ [req]
    /\ method req = POST
    /\ In ("Content-Type", "multipart/form-data") (headers req)
    /\ body req = Some payload
    /\ (forall k e,
          In (k, e) payload
          <-> (exists value, In (k, value) data
                             /\ payloadEntry (selectedAmenities st) k value e)
              \/ (k, e) = ("published", FText "false")
              \/ (k, e) = ("can_rate", FText "false"))
    /\ (forall l, watch "amenities" data = VArr l ->
          In ("amenities", FText (jsonStringify (selectedAmenities st))) payload)
    /\ (forall k,
          k <> "amenities" -> k <> "published" -> k <> "can_rate" ->
          (forall value, In (k, value) data -> notNullish value = false) ->
          forall e, ~ In (k, e) payload).
Proof.
  intros Hs Hi Hv Ht.
  exists (apartmentRequest (getAuthToken env) (buildFormData data (selectedAmenities st))).
  exists (buildFormData data (selectedAmenities st)).
  rewrite (onSubmit_sent env data server st Hs Hi Hv Ht).
  split; [|split; [|split; [|split; [|split; [|split]]]]].
  - cbn [requests setIsLoading]. rewrite requests_settle. reflexivity.
  - reflexivity.
  - simpl. tauto.
  - reflexivity.
  - intros k e. apply buildFormData_spec.
  - intros l Hl. apply buildFormData_spec. left. exists (VArr l). split.
    + rewrite <- Hl. apply watch_In. rewrite Hl. discriminate.
    + now constructor.
  - intros k Ha Hp Hc Hnull e He.
    apply buildFormData_spec in He as [(value & Hin & He)|[He|He]];
      [|congruence|congruence].
    specialize (Hnull value Hin).
    inversion He; subst; try contradiction; try discriminate; congruence.
Qed.

Lemma onSubmit_payload_witness :
  exists (req : Request) (payload : FormData),
    requests (onSubmit loggedIn (form readyState)
                (Resolved (Some (mkPostBody (VBool true)))) readyState)
    = requests readyState ++ [req]
    /\ body req = Some payload
    /\ In ("amenities", FText (jsonStringify ["WiFi"; "Parking"])) payload
    /\ In ("image1", FBlob photo) payload
    /\ In ("video1", FBlob clip) payload
    /\ In ("published", FText "false") payload
    /\ In ("can_rate", FText "false") payload.
Proof.
  destruct (onSubmit_payload loggedIn (form readyState)
              (Resolved (Some (mkPostBody (VBool true)))) readyState
              eq_refl eq_refl eq_refl eq_refl)
    as (req & payload & Hreq & _ & _ & Hbody & Hin & Ham & _).
  exists req, payload.
  split; [exact Hreq|]. split; [exact Hbody|].
  split; [apply (Ham ["WiFi"; "Parking"]); reflexivity|].
  split; [|split; [|split]]; apply Hin.
  - left. exists (VFile photo). split; [vm_compute; tauto|constructor].
  - left. exists (VFile clip). split; [vm_compute; tauto|constructor].
  - right. left. reflexivity.
  - right. right. reflexivity.
Defined.

(** ** Reset after a successful submission *)

Lemma onSubmit_success (env : Env) (data : Form) (b : PostBody) (st : State) :
  step st = 5 ->
  someTruthy imageFields data = true ->
  someTruthy videoFields data = true ->
  tokenMissing (getAuthToken env) = false ->
  truthy (post_success b) = true ->
  onSubmit env data (Resolved (Some b)) st
  = setIsLoading false
      (resetAfterSuccess
         (showAlert "Property successfully added!" success
            (send (apartmentRequest (getAuthToken env)
                     (buildFormData data (selectedAmenities st)))
               (setIsLoading true st)))).
Proof.
  intros Hs Hi Hv Ht Hb. rewrite (onSubmit_sent env data _ st Hs Hi Hv Ht).
  unfold settle. now rewrite Hb.
Qed.

(** C2, as stated, fails: after a successful submission the form does
    not hold the values of a freshly mounted instance. The reset stores
    explicit values; so [duration_type] reads ['month'] after the reset,
    while in a freshly mounted instance, whose first render shows
    step 1 only, it has no value. *)
Lemma reset_differs_from_fresh_mount :
  ~ (forall (env : Env) (data : Form) (b : PostBody) (st : State),
       step st = 5 ->
       someTruthy imageFields data = true ->
       someTruthy videoFields data = true ->
       tokenMissing (getAuthToken env) = false ->
       truthy (post_success b) = true ->
       let st' := onSubmit env data (Resolved (Some b)) st in
       (forall field, watch field (form st') = watch field (form mountedState))
       /\ imagePreview st' = imagePreview mountedState
       /\ videoPreview st' = videoPreview mountedState
       /\ selectedAmenities st' = selectedAmenities mountedState
       /\ step st' = step mountedState).
Proof.
  intros H.
  destruct (H loggedIn (form readyState) (mkPostBody (VBool true)) readyState
              eq_refl eq_refl eq_refl eq_refl eq_refl) as [Hform _].
  specialize (Hform "duration_type"). vm_compute in Hform. discriminate Hform.
Qed.

(** C2 (amended): after a submission whose response carries a truthy
    success flag, the step index, both preview maps, the selected
    amenities and the fields [amenities], [currency_code],
    [country_code] and [title] equal those of a freshly mounted
    instance (1, empty, empty, [[]], [[]], ['NGN'], ['NG'], ['']). The
    other fields hold the values the reset writes, which are not those
    of a freshly mounted instance: [category_id = 0],
    [description = null] and [number_of_rooms = null], where a fresh
    instance holds ['']; and [amount = 0], [security_deposit = null],
    [security_deposit_currency_code = null], [duration = 0],
    [duration_type = 'month'], [state_code = ''], [city_code = ''] and
    [null] in each of the ten file slots, where a fresh instance holds
    no value yet. The success notice is the only notice shown. *)
Theorem onSubmit_success_reset (env : Env) (data : Form) (b : PostBody) (st : State) :
  step st = 5 ->
  someTruthy imageFields data = true ->
  someTruthy videoFields data = true ->
  tokenMissing (getAuthToken env) = false ->
  truthy (post_success b) = true ->
  let st' := onSubmit env data (Resolved (Some b)) st in
  (step st' = step mountedState
   /\ imagePreview st' = imagePreview mountedState
   /\ videoPreview st' = videoPreview mountedState
   /\ selectedAmenities st' = selectedAmenities mountedState
   /\ isLoading st' = isLoading mountedState)
  /\ (step st' = 1 /\ imagePreview st' = ∅ /\ videoPreview st' = ∅
      /\ selectedAmenities st' = [])
  /\ (forall field value,
        In (field, value)
           [ ("amenities", VArr []); ("currency_code", VStr "NGN");
             ("country_code", VStr "NG"); ("title", VStr "") ] ->
        watch field (form st') = value
        /\ watch field (form mountedState) = value)
  /\ (forall field reset fresh,
        In (field, reset, fresh)
           [ ("category_id", VNum 0, VStr ""); ("description", VNull, VStr "");
             ("number_of_rooms", VNull, VStr "");
             ("amount", VNum 0, VUndefined); ("security_deposit", VNull, VUndefined);
             ("security_deposit_currency_code", VNull, VUndefined);
             ("duration", VNum 0, VUndefined);
             ("duration_type", VStr "month", VUndefined);
             ("state_code", VStr "", VUndefined); ("city_code", VStr "", VUndefined) ] ->
        watch field (form st') = reset
        /\ watch field (form mountedState) = fresh)
  /\ (forall field, In field (imageFields ++ videoFields) ->
        watch field (form st') = VNull
        /\ watch field (form mountedState) = VUndefined)
  /\ notices st' = notices st ++ [("Property successfully added!", success)].
Proof.
  intros Hs Hi Hv Ht Hb st'. subst st'.
  rewrite (onSubmit_success env data b st Hs Hi Hv Ht Hb).
  rewrite form_setIsLoading.
  split; [repeat split|split; [repeat split|split; [|split; [|split]]]].
  - intros field value Hin. simpl in Hin.
    repeat (destruct Hin as [Heq|Hin];
            [injection Heq as <- <-; split;
             [unfold resetAfterSuccess; watch_compute; reflexivity|reflexivity]|]).
    contradiction.
  - intros field reset fresh Hin. simpl in Hin.
    repeat (destruct Hin as [Heq|Hin];
            [injection Heq as <- <- <-; split;
             [unfold resetAfterSuccess; watch_compute; reflexivity|reflexivity]|]).
    contradiction.
  - intros field Hin. split; [now apply reset_slot|].
    simpl in Hin.
    repeat (destruct Hin as [<-|Hin]; [reflexivity|]). contradiction.
  - reflexivity.
Qed.

Lemma onSubmit_success_reset_witness :
  let st' := onSubmit loggedIn (form readyState)
               (Resolved (Some (mkPostBody (VBool true)))) readyState in
  step st' = 1
  /\ watch "image1" (form st') = VNull
  /\ watch "duration_type" (form st') = VStr "month"
  /\ watch "title" (form st') = watch "title" (form mountedState).
Proof.
  intros st'.
  destruct (onSubmit_success_reset loggedIn (form readyState)
              (mkPostBody (VBool true)) readyState
              eq_refl eq_refl eq_refl eq_refl eq_refl)
    as (_ & (Hstep & _) & Hsame & Hvalues & Hslots & _).
  assert (Hslot : In "image1" (imageFields ++ videoFields)) by (simpl; tauto).
  assert (Hdur : In ("duration_type", VStr "month", VUndefined)
                   [ ("category_id", VNum 0, VStr ""); ("description", VNull, VStr "");
                     ("number_of_rooms", VNull, VStr "");
                     ("amount", VNum 0, VUndefined); ("security_deposit", VNull, VUndefined);
                     ("security_deposit_currency_code", VNull, VUndefined);
                     ("duration", VNum 0, VUndefined);
                     ("duration_type", VStr "month", VUndefined);
                     ("state_code", VStr "", VUndefined);
                     ("city_code", VStr "", VUndefined) ]) by (simpl; tauto).
  assert (Htitle : In ("title", VStr "")
                     [ ("amenities", VArr []); ("currency_code", VStr "NGN");
                       ("country_code", VStr "NG"); ("title", VStr "") ])
    by (simpl; tauto).
  split; [exact Hstep|]. split; [|split].
  - exact (proj1 (Hslots "image1" Hslot)).
  - exact (proj1 (Hvalues "duration_type" (VStr "month") VUndefined Hdur)).
  - exact (eq_trans (proj1 (Hsame "title" (VStr "") Htitle))
             (eq_sym (proj2 (Hsame "title" (VStr "") Htitle)))).
Defined.

End WizardFacts.

Section CheckoutFlowFacts.

Import Checkout CheckoutFlow Scenario.

(** * Further properties of the checkout component *)

Lemma filter_first (plans : list PlansInterface) (i : Z) :
  (exists p, In p plans /\ id p = i) ->
  exists before p after,
    plans = before ++ p :: after
    /\ id p = i
    /\ (forall q, In q before -> id q <> i)
    /\ head (List.filter (fun r => id r =? i) plans) = Some p.
Proof.
  induction plans as [|q qs IH]; intros (p & Hin & Hid).
  - destruct Hin.
  - destruct (Z.eqb_spec (id q) i) as [Hq|Hq].
    + exists [], q, qs. simpl. rewrite (proj2 (Z.eqb_eq _ _) Hq).
      split; [reflexivity|split; [exact Hq|split; [intros ? []|reflexivity]]].
    + destruct Hin as [->|Hin]; [contradiction|].
      destruct (IH (ex_intro _ p (conj Hin Hid))) as (before & p' & after & -> & Hp' & Hb & Hh).
      exists (q :: before), p', after. simpl.
      rewrite (proj2 (Z.eqb_neq _ _) Hq).
      split; [reflexivity|split; [exact Hp'|split; [|exact Hh]]].
      intros r [<-|Hr]; auto.
Qed.

(** X1: when the supplied plan list has a plan with the requested
    identifier, [selectedPlanIs] stores the first plan of the list with
    that identifier (also when several share it) and changes nothing
    else. *)
Theorem selectedPlanIs_present (plans : list PlansInterface) (i : Z) (st : State) :
  (exists p, In p plans /\ id p = i) ->
  exists before p after,
    plans = before ++ p :: after
    /\ id p = i
    /\ (forall q, In q before -> id q <> i)
    /\ selectedPlanIs (Some plans) i st = setSelectedPlan (Some p) st.
Proof.
  intros Hex.
  destruct (filter_first plans i Hex) as (before & p & after & Hsplit & Hid & Hb & Hh).
  exists before, p, after. unfold selectedPlanIs. cbv zeta. rewrite Hh. auto.
Qed.

Lemma selectedPlanIs_present_witness :
  exists before p after,
    [basicPlan] = before ++ p :: after
    /\ id p = 1
    /\ (forall q, In q before -> id q <> 1)
    /\ selectedPlanIs (Some [basicPlan]) 1 initialState
       = setSelectedPlan (Some p) initialState.
Proof.
  apply (selectedPlanIs_present [basicPlan] 1 initialState).
  exists basicPlan. split; [now left|reflexivity].
Defined.

(** X2: [selectedPaymentMethodIs] called with [active = true] and a slug
    that no gateway of the list has stores [undefined]: a gateway
    selected before is dropped, without any notice. *)
Theorem selectedPaymentMethodIs_unknown_slug (sl : string) (st : State) :
  sl <> "bank-transfer" -> sl <> "paystack" ->
  selectedGateway (selectedPaymentMethodIs sl true st) = None
  /\ selectedPlan (selectedPaymentMethodIs sl true st) = selectedPlan st
  /\ alerts (selectedPaymentMethodIs sl true st) = alerts st.
Proof.
  intros Hb Hp. rewrite selectedPaymentMethodIs_active.
  unfold gateways. cbn [List.filter slug].
  destruct (String.eqb_spec "bank-transfer" sl) as [Heq|_]; [congruence|].
  destruct (String.eqb_spec "paystack" sl) as [Heq|_]; [congruence|].
  repeat split.
Qed.

Lemma selectedPaymentMethodIs_unknown_slug_witness :
  selectedGateway
    (selectedPaymentMethodIs "card" true
       (setSelectedGateway (Some (bankTransfer None)) initialState)) = None.
Proof.
  refine (proj1 (selectedPaymentMethodIs_unknown_slug "card"
                   (setSelectedGateway (Some (bankTransfer None)) initialState) _ _));
    discriminate.
Defined.

(** The invariant of the checkout: a selected plan comes from the plan
    list, and a selected gateway is the active bank-transfer entry built
    for the selected plan. *)
Lemma reachable_checkout (plans : option (list PlansInterface)) (st : State) :
  reachable plans st ->
  (forall p, selectedPlan st = Some p -> exists ps, plans = Some ps /\ In p ps)
  /\ (forall g, selectedGateway st = Some g ->
        exists p, selectedPlan st = Some p /\ g = bankTransfer (Some p))
  /\ (forall r, gatewayResponse st = Some r -> selectedGateway st <> None).
Proof.
  induction 1 as [|ev st Hreach (IHp & IHg & IHr) Hen].
  - repeat split; intros ? H; discriminate H.
  - unfold enabled, render in Hen.
    destruct ev as [pl|way|response]; simpl.
    + (* a plan card *)
      destruct (selectedGateway st) as [g|] eqn:Hg;
        destruct (selectedPlan st) as [p0|] eqn:Hp; try discriminate Hen.
      { destruct (IHg g eq_refl) as (p & Hp' & _). discriminate Hp'. }
      destruct plans as [ps|]; [|discriminate Hen].
      apply bool_decide_eq_true_1, list_elem_of_In in Hen.
      destruct (filter_first ps (id pl) (ex_intro _ pl (conj Hen eq_refl)))
        as (before & p & after & Hsplit & _ & _ & Hh).
      unfold selectedPlanIs. cbv zeta. rewrite Hh. simpl. rewrite Hg.
      split; [|split].
      * intros q [= <-]. exists ps. split; [reflexivity|].
        rewrite Hsplit. apply in_or_app. right. now left.
      * intros g H. discriminate H.
      * intros r Hr. destruct (IHr r Hr). reflexivity.
    + (* a gateway button *)
      destruct (selectedGateway st) as [g|] eqn:Hg;
        destruct (selectedPlan st) as [p0|] eqn:Hp; try discriminate Hen;
        try (destruct plans; discriminate Hen).
      apply bool_decide_eq_true_1, list_elem_of_In in Hen.
      unfold clickGateway.
      destruct Hen as [<-|[<-|[]]]; cbn [slug active].
      * rewrite selectedPaymentMethodIs_active.
        cbn [selectedPlan selectedGateway gatewayResponse setSelectedGateway console_log].
        rewrite Hp. cbn.
        split; [|split].
        -- intros q Hq. apply IHp. exact Hq.
        -- intros g [= <-]. exists p0. split; reflexivity.
        -- intros r _. discriminate.
      * rewrite selectedPaymentMethodIs_inactive. simpl. rewrite Hp, Hg.
        split; [|split]; auto.
    + (* the handler completes *)
      destruct (selectedGateway st) as [g|] eqn:Hg;
        destruct (selectedPlan st) as [p0|] eqn:Hp; try discriminate Hen;
        try (destruct plans; discriminate Hen).
      split; [exact IHp|split; [exact IHg|]]. intros r _. discriminate.
Qed.

(** X3: in every state the checkout reaches, a selected plan is a plan
    of the supplied list, and a selected gateway is the active
    bank-transfer entry built for the currently selected plan: the
    handler rendered is [BankTransfer] with that plan, never [Paystack]
    and never a handler holding another plan. *)
Theorem checkout_renders_bank_transfer (plans : option (list PlansInterface))
    (st : State) :
  reachable plans st ->
  (forall p, selectedPlan st = Some p -> exists ps, plans = Some ps /\ In p ps)
  /\ (forall g, selectedGateway st = Some g ->
        exists p, selectedPlan st = Some p
                  /\ active g = true
                  /\ slug g = "bank-transfer"
                  /\ render plans st = ViewGateway (BankTransfer (Some p))).
Proof.
  intros Hreach. destruct (reachable_checkout plans st Hreach) as (Hp & Hg & _).
  split; [exact Hp|].
  intros g Hsel. destruct (Hg g Hsel) as (p & Hplan & ->).
  exists p. unfold render. rewrite Hsel, Hplan. repeat split.
Qed.

Lemma checkout_renders_bank_transfer_witness :
  let st := handle (Some [basicPlan]) (EvGateway (bankTransfer (Some basicPlan)))
              (handle (Some [basicPlan]) (EvGetStarted basicPlan) initialState) in
  exists p, selectedPlan st = Some p
            /\ active (bankTransfer (Some basicPlan)) = true
            /\ slug (bankTransfer (Some basicPlan)) = "bank-transfer"
            /\ render (Some [basicPlan]) st = ViewGateway (BankTransfer (Some p)).
Proof.
  intros st.
  refine (proj2 (checkout_renders_bank_transfer (Some [basicPlan]) st _)
            (bankTransfer (Some basicPlan)) _).
  - apply reachable_step; [apply reachable_step; [apply reachable_init|]|];
      vm_compute; reflexivity.
  - reflexivity.
Defined.

(** X4: once a gateway is selected the choice is final: every control
    the component still offers leaves the selected plan and gateway as
    they are (only the handler's completion callback can run, and it
    only records the response); and a response is only ever recorded
    after a gateway was selected. *)
Theorem checkout_selection_final (plans : option (list PlansInterface)) (st : State) :
  reachable plans st ->
  (forall g ev, selectedGateway st = Some g ->
     enabled plans ev st = true ->
     selectedPlan (handle plans ev st) = selectedPlan st
     /\ selectedGateway (handle plans ev st) = selectedGateway st
     /\ alerts (handle plans ev st) = alerts st)
  /\ (forall r, gatewayResponse st = Some r -> selectedGateway st <> None).
Proof.
  intros Hreach. destruct (reachable_checkout plans st Hreach) as (_ & Hg & Hr).
  split; [|exact Hr].
  intros g ev Hsel Hen. destruct (Hg g Hsel) as (p & Hplan & _).
  unfold enabled, render in Hen. rewrite Hsel, Hplan in Hen.
  destruct ev as [pl|way|response]; try discriminate Hen.
  repeat split.
Qed.

Lemma checkout_selection_final_witness :
  let st := handle (Some [basicPlan]) (EvGateway (bankTransfer (Some basicPlan)))
              (handle (Some [basicPlan]) (EvGetStarted basicPlan) initialState) in
  selectedGateway (handle (Some [basicPlan]) (EvCompleted (VStr "paid")) st)
  = selectedGateway st.
Proof.
  intros st.
  assert (Hreach : reachable (Some [basicPlan]) st).
  { apply reachable_step; [apply reachable_step; [apply reachable_init|]|];
      vm_compute; reflexivity. }
  refine (proj1 (proj2 (proj1 (checkout_selection_final (Some [basicPlan]) st Hreach)
                          (bankTransfer (Some basicPlan)) (EvCompleted (VStr "paid")) _ _)));
    reflexivity.
Defined.

End CheckoutFlowFacts.

Section WizardExtras.

Import AddProperty Wizard Scenario.

(** * Further properties of the property wizard *)

(** ** Attaching and removing files *)

Lemma handleFileChange_within (fieldName : string) (type : FileType) (file : File)
    (st : State) :
  file_size file <= maxSizeOf type ->
  handleFileChange fieldName type (Some file) st
  = setReaders (readers st ++ [mkReaderTask fieldName type file])
      (formSet fieldName (VFile file) st).
Proof.
  intros Hle. unfold handleFileChange. cbv zeta.
  rewrite Z.gtb_ltb. destruct (Z.ltb_spec (maxSizeOf type) (file_size file)); [lia|].
  reflexivity.
Qed.

(** X5: a file whose size is at most the limit of its type (a file of
    exactly 3 MB, or a video of exactly 10 MB, included) is stored in
    its slot without any notice; every other field keeps its value, one
    reader is started for the file, and the preview maps are not yet
    touched. *)
Theorem handleFileChange_accepts (fieldName : string) (type : FileType) (file : File)
    (st : State) :
  file_size file <= maxSizeOf type ->
  let st' := handleFileChange fieldName type (Some file) st in
  watch fieldName (form st') = VFile file
  /\ (forall k, k <> fieldName -> watch k (form st') = watch k (form st))
  /\ readers st' = readers st ++ [mkReaderTask fieldName type file]
  /\ notices st' = notices st
  /\ imagePreview st' = imagePreview st
  /\ videoPreview st' = videoPreview st
  /\ step st' = step st.
Proof.
  intros Hle st'. subst st'. rewrite (handleFileChange_within _ _ _ _ Hle).
  cbn [form readers notices imagePreview videoPreview step setReaders formSet setForm].
  split; [apply watch_setValue_eq|].
  split; [intros k Hk; apply watch_setValue_ne; congruence|].
  repeat split.
Qed.

Lemma handleFileChange_accepts_witness :
  watch "image2" (form (handleFileChange "image2" image (Some limitPhoto) readyState))
  = VFile limitPhoto
  /\ watch "video2" (form (handleFileChange "video2" video (Some limitClip) readyState))
     = VFile limitClip.
Proof.
  split.
  - refine (proj1 (handleFileChange_accepts "image2" image limitPhoto readyState _)).
    vm_compute. discriminate.
  - refine (proj1 (handleFileChange_accepts "video2" video limitClip readyState _)).
    vm_compute. discriminate.
Defined.

Lemma preview_after_load_frame (fieldName : string) (type : FileType) (file : File)
    (readerResult blobUrl : string) (st : State) :
  file_size file <= maxSizeOf type ->
  let st1 := handleFileChange fieldName type (Some file) st in
  let st2 := onloadend (length (readers st)) readerResult blobUrl st1 in
  readers st2 = readers st
  /\ previewOf type st2
     = <[fieldName := match type with image => readerResult | video => blobUrl end]>
         (previewOf type st)
  /\ previewOf (match type with image => video | video => image end) st2
     = previewOf (match type with image => video | video => image end) st.
Proof.
  intros Hle st1 st2. subst st1 st2. rewrite (handleFileChange_within _ _ _ _ Hle).
  unfold onloadend.
  cbn [form readers notices imagePreview videoPreview step setReaders formSet setForm].
  rewrite (list_lookup_middle (readers st) [] _ _ eq_refl).
  cbv zeta. cbn [task_type task_field].
  rewrite (delete_middle (readers st) []), app_nil_r.
  destruct type; repeat split.
Qed.

Lemma preview_after_load_slot (fieldName : string) (type : FileType) (file : File)
    (readerResult blobUrl : string) (st : State) :
  file_size file <= maxSizeOf type ->
  watch fieldName
    (form (onloadend (length (readers st)) readerResult blobUrl
             (handleFileChange fieldName type (Some file) st)))
  = VFile file.
Proof.
  intros Hle. rewrite (handleFileChange_within _ _ _ _ Hle).
  unfold onloadend.
  cbn [form readers notices imagePreview videoPreview step setReaders formSet setForm].
  rewrite (list_lookup_middle (readers st) [] _ _ eq_refl).
  cbv zeta. destruct type; apply watch_setValue_eq.
Qed.

(** X6: when the reader started for an accepted file finishes, the
    preview of the slot is what the browser delivered (the data URL of
    the reader for an image, the blob URL for a video), the map of the
    other type and every other entry are untouched, the file is still in
    its slot, and the reader is no longer pending. *)
Theorem preview_after_load (fieldName : string) (type : FileType) (file : File)
    (readerResult blobUrl : string) (st : State) :
  file_size file <= maxSizeOf type ->
  let st1 := handleFileChange fieldName type (Some file) st in
  let st2 := onloadend (length (readers st)) readerResult blobUrl st1 in
  watch fieldName (form st2) = VFile file
  /\ readers st2 = readers st
  /\ previewOf type st2
     = <[fieldName := match type with image => readerResult | video => blobUrl end]>
         (previewOf type st)
  /\ previewOf (match type with image => video | video => image end) st2
     = previewOf (match type with image => video | video => image end) st.
Proof.
  intros Hle st1 st2. split.
  - apply preview_after_load_slot, Hle.
  - apply preview_after_load_frame, Hle.
Qed.

Lemma preview_after_load_witness :
  previewOf image
    (onloadend (length (readers readyState)) "data:image/jpeg;base64,BBBB" ""
       (handleFileChange "image2" image (Some limitPhoto) readyState))
  = <["image2" := "data:image/jpeg;base64,BBBB"]> (previewOf image readyState).
Proof.
  refine (proj1 (proj2 (proj2
    (preview_after_load "image2" image limitPhoto "data:image/jpeg;base64,BBBB" ""
       readyState _)))).
  vm_compute. discriminate.
Defined.

Lemma removeFile_form (fieldName : string) (type : FileType) (st : State) :
  form (removeFile fieldName type st) = setValue fieldName VNull (form st).
Proof. destruct type; reflexivity. Qed.

(** X7: [removeFile] empties the slot ([null]) and deletes the preview
    entry of the slot in the map of its type; every other field, every
    other preview entry, the map of the other type, the notices and the
    step are unchanged. *)
Theorem removeFile_clears (fieldName : string) (type : FileType) (st : State) :
  let st' := removeFile fieldName type st in
  watch fieldName (form st') = VNull
  /\ previewOf type st' !! fieldName = None
  /\ (forall k, k <> fieldName ->
        watch k (form st') = watch k (form st)
        /\ previewOf type st' !! k = previewOf type st !! k)
  /\ previewOf (match type with image => video | video => image end) st'
     = previewOf (match type with image => video | video => image end) st
  /\ notices st' = notices st
  /\ step st' = step st.
Proof.
  intros st'. subst st'. rewrite removeFile_form.
  split; [apply watch_setValue_eq|].
  destruct type; cbn; (split; [apply lookup_delete_eq|]);
    (split; [intros k Hk; split;
             [apply watch_setValue_ne; congruence|apply lookup_delete_ne; congruence]|]);
    repeat split.
Qed.

Lemma removeFile_clears_witness :
  watch "title" (form (removeFile "image1" image readyState))
  = watch "title" (form readyState)
  /\ previewOf image (removeFile "image1" image readyState) !! "image2"
     = previewOf image readyState !! "image2".
Proof.
  refine (proj1 (proj2 (proj2 (removeFile_clears "image1" image readyState))) "title" _);
    discriminate.
Defined.

(** X8: attaching a file within its limit to a slot that has no
    preview, letting its reader finish, and removing it again gives back
    the preview maps and the pending readers of the start, with the slot
    empty: no file is counted as attached for it. *)
Theorem attach_then_remove (fieldName : string) (type : FileType) (file : File)
    (readerResult blobUrl : string) (st : State) :
  file_size file <= maxSizeOf type ->
  previewOf type st !! fieldName = None ->
  let st1 := handleFileChange fieldName type (Some file) st in
  let st2 := onloadend (length (readers st)) readerResult blobUrl st1 in
  let st3 := removeFile fieldName type st2 in
  imagePreview st3 = imagePreview st
  /\ videoPreview st3 = videoPreview st
  /\ readers st3 = readers st
  /\ watch fieldName (form st3) = VNull
  /\ instanceofFile (watch fieldName (form st3)) = false.
Proof.
  intros Hle Hnone st1 st2 st3.
  destruct (preview_after_load_frame fieldName type file readerResult blobUrl st Hle)
    as (Hr & Hp & Ho).
  fold st1 st2 in Hr, Hp, Ho.
  assert (Hw : watch fieldName (form st3) = VNull).
  { subst st3. rewrite removeFile_form. apply watch_setValue_eq. }
  assert (Hrd : readers st3 = readers st).
  { rewrite <- Hr. subst st3. destruct type; reflexivity. }
  assert (Hsame : previewOf type st3 = previewOf type st).
  { subst st3. destruct type; cbn in *; rewrite Hp; now apply delete_insert_id. }
  assert (Hother : previewOf (match type with image => video | video => image end) st3
                   = previewOf (match type with image => video | video => image end) st).
  { rewrite <- Ho. subst st3. destruct type; reflexivity. }
  rewrite Hw. destruct type; cbn in Hsame, Hother; repeat split; assumption.
Qed.

Lemma attach_then_remove_witness :
  let st1 := handleFileChange "image2" image (Some limitPhoto) readyState in
  let st2 := onloadend (length (readers readyState)) "data:image/jpeg;base64,BBBB" "" st1 in
  imagePreview (removeFile "image2" image st2) = imagePreview readyState.
Proof.
  intros st1 st2.
  refine (proj1 (attach_then_remove "image2" image limitPhoto
                   "data:image/jpeg;base64,BBBB" "" readyState _ _)).
  - vm_compute. discriminate.
  - reflexivity.
Defined.

(** ** Amenities *)

Lemma includes_In (a : string) (l : list string) :
  existsb (String.eqb a) l = true <-> In a l.
Proof.
  rewrite existsb_exists. split.
  - intros (x & Hx & Heq). apply String.eqb_eq in Heq. now subst.
  - intros Hin. exists a. split; [exact Hin|apply String.eqb_refl].
Qed.

Lemma In_without (a x : string) (l : list string) :
  In x (List.filter (fun b => negb (String.eqb b a)) l) <-> In x l /\ x <> a.
Proof.
  rewrite filter_In. destruct (String.eqb_spec x a); simpl; intuition congruence.
Qed.

Lemma filter_sublist {A} (f : A -> bool) (l : list A) :
  sublist (List.filter f l) l.
Proof.
  induction l as [|x l IH]; simpl; [constructor|].
  destruct (f x); now constructor.
Qed.

Lemma without_absent (a : string) (l : list string) :
  ~ In a l -> List.filter (fun b => negb (String.eqb b a)) l = l.
Proof.
  induction l as [|x l IH]; simpl; [reflexivity|]. intros Hn.
  destruct (String.eqb_spec x a) as [->|_]; simpl.
  - exfalso. apply Hn. now left.
  - rewrite IH; [reflexivity|]. intros H. apply Hn. now right.
Qed.

Lemma toggled_amenities (amenity : string) (st : State) :
  selectedAmenities (handleAmenityToggle amenity st)
  = if existsb (String.eqb amenity) (selectedAmenities st)
    then List.filter (fun a => negb (String.eqb a amenity)) (selectedAmenities st)
    else selectedAmenities st ++ [amenity].
Proof. reflexivity. Qed.

Lemma toggled_form (amenity : string) (st : State) :
  form (handleAmenityToggle amenity st)
  = setValue "amenities" (VArr (selectedAmenities (handleAmenityToggle amenity st)))
      (form st).
Proof. reflexivity. Qed.

Lemma toggled_NoDup (amenity : string) (st : State) :
  NoDup (selectedAmenities st) ->
  NoDup (selectedAmenities (handleAmenityToggle amenity st)).
Proof.
  intros Hnd. rewrite toggled_amenities.
  destruct (existsb (String.eqb amenity) (selectedAmenities st)) eqn:Hin.
  - eapply sublist_NoDup; [exact Hnd|apply filter_sublist].
  - apply NoDup_app. split; [exact Hnd|]. split; [|apply NoDup_singleton].
    intros x Hx Hxa. apply list_elem_of_In in Hx.
    apply list_elem_of_singleton in Hxa. subst x.
    apply includes_In in Hx. congruence.
Qed.

(** X9: [handleAmenityToggle] flips the membership of the amenity in
    the selected list and of no other amenity, keeps the list free of
    duplicates, and stores the new list in the form. *)
Theorem handleAmenityToggle_flips (amenity : string) (st : State) :
  let st' := handleAmenityToggle amenity st in
  (In amenity (selectedAmenities st') <-> ~ In amenity (selectedAmenities st))
  /\ (forall a, a <> amenity ->
        (In a (selectedAmenities st') <-> In a (selectedAmenities st)))
  /\ (NoDup (selectedAmenities st) -> NoDup (selectedAmenities st'))
  /\ watch "amenities" (form st') = VArr (selectedAmenities st').
Proof.
  intros st'. subst st'.
  split; [|split; [|split]].
  - rewrite toggled_amenities.
    destruct (existsb (String.eqb amenity) (selectedAmenities st)) eqn:Hin.
    + apply includes_In in Hin. rewrite In_without. tauto.
    + assert (Hn : ~ In amenity (selectedAmenities st)).
      { intros H. apply includes_In in H. congruence. }
      rewrite in_app_iff. simpl. tauto.
  - intros a Ha. rewrite toggled_amenities.
    destruct (existsb (String.eqb amenity) (selectedAmenities st)).
    + rewrite In_without. tauto.
    + rewrite in_app_iff. simpl. intuition congruence.
  - apply toggled_NoDup.
  - rewrite toggled_form. apply watch_setValue_eq.
Qed.

Lemma handleAmenityToggle_flips_witness :
  (In "Gym" (selectedAmenities (handleAmenityToggle "WiFi" readyState))
     <-> In "Gym" (selectedAmenities readyState))
  /\ NoDup (selectedAmenities (handleAmenityToggle "WiFi" readyState)).
Proof.
  pose proof (handleAmenityToggle_flips "WiFi" readyState) as (_ & Hother & Hnd & _).
  split.
  - apply Hother. discriminate.
  - apply Hnd. apply (bool_decide_unpack _). vm_compute. exact I.
Defined.

Lemma setValue_setValue (k : string) (v w : Value) (f : Form) :
  setValue k v (setValue k w f) = setValue k v f.
Proof.
  induction f as [|[k0 v0] rest IH]; simpl.
  - now rewrite String.eqb_refl.
  - destruct (String.eqb_spec k0 k) as [->|Hne]; simpl.
    + now rewrite String.eqb_refl.
    + destruct (String.eqb_spec k0 k); [contradiction|]. now rewrite IH.
Qed.

Lemma setValue_watch (k : string) (f : Form) :
  watch k f <> VUndefined -> setValue k (watch k f) f = f.
Proof.
  induction f as [|[k0 v0] rest IH]; simpl; [congruence|].
  destruct (String.eqb_spec k0 k) as [->|_]; [reflexivity|].
  intros H. now rewrite IH.
Qed.

Lemma State_ext (st1 st2 : State) :
  step st1 = step st2 -> categories st1 = categories st2 ->
  isLoading st1 = isLoading st2 ->
  imagePreview st1 = imagePreview st2 -> videoPreview st1 = videoPreview st2 ->
  selectedAmenities st1 = selectedAmenities st2 -> form st1 = form st2 ->
  notices st1 = notices st2 -> requests st1 = requests st2 ->
  readers st1 = readers st2 ->
  st1 = st2.
Proof. destruct st1, st2; simpl; intros; subst; reflexivity. Qed.

(** X10: toggling the same amenity twice gives back the same set of
    selected amenities; and when the amenity was not selected and the
    form holds the selected list (as it does in every reachable state),
    the second toggle restores the whole state. *)
Theorem handleAmenityToggle_twice (amenity : string) (st : State) :
  (forall a, In a (selectedAmenities
                     (handleAmenityToggle amenity (handleAmenityToggle amenity st)))
             <-> In a (selectedAmenities st))
  /\ (~ In amenity (selectedAmenities st) ->
      watch "amenities" (form st) = VArr (selectedAmenities st) ->
      handleAmenityToggle amenity (handleAmenityToggle amenity st) = st).
Proof.
  split.
  - intros a. rewrite (toggled_amenities amenity (handleAmenityToggle amenity st)).
    rewrite (toggled_amenities amenity st).
    destruct (existsb (String.eqb amenity) (selectedAmenities st)) eqn:Hin.
    + assert (Hout : existsb (String.eqb amenity)
                       (List.filter (fun b => negb (String.eqb b amenity))
                          (selectedAmenities st)) = false).
      { apply not_true_is_false. intros H. apply includes_In, In_without in H. tauto. }
      rewrite Hout, in_app_iff, In_without. simpl.
      apply includes_In in Hin.
      destruct (String.eqb_spec a amenity) as [->|Hne]; [tauto|intuition congruence].
    + assert (Hnow : existsb (String.eqb amenity) (selectedAmenities st ++ [amenity]) = true).
      { apply includes_In, in_or_app. right. now left. }
      rewrite Hnow, In_without, in_app_iff. simpl.
      assert (Hn : ~ In amenity (selectedAmenities st)).
      { intros H. apply includes_In in H. congruence. }
      split; [intros [[H|[<-|[]]] Hne]; [exact H|contradiction]|].
      intros H. split; [now left|]. intros ->. contradiction.
  - intros Hn Hsync.
    assert (Hin : existsb (String.eqb amenity) (selectedAmenities st) = false).
    { apply not_true_is_false. intros H. apply includes_In in H. contradiction. }
    assert (Hsel1 : selectedAmenities (handleAmenityToggle amenity st)
                    = selectedAmenities st ++ [amenity]).
    { rewrite toggled_amenities, Hin. reflexivity. }
    assert (Hsel2 : selectedAmenities
                      (handleAmenityToggle amenity (handleAmenityToggle amenity st))
                    = selectedAmenities st).
    { rewrite toggled_amenities, Hsel1.
      assert (Hnow : existsb (String.eqb amenity) (selectedAmenities st ++ [amenity]) = true).
      { apply includes_In, in_or_app. right. now left. }
      rewrite Hnow, List.filter_app, (without_absent _ _ Hn). simpl.
      rewrite String.eqb_refl. simpl. apply app_nil_r. }
    assert (Hform : form (handleAmenityToggle amenity (handleAmenityToggle amenity st))
                    = form st).
    { rewrite toggled_form, Hsel2, toggled_form, setValue_setValue, <- Hsync.
      apply setValue_watch. rewrite Hsync. discriminate. }
    apply State_ext; try reflexivity; assumption.
Qed.

Lemma handleAmenityToggle_twice_witness :
  handleAmenityToggle "Gym" (handleAmenityToggle "Gym" readyState) = readyState.
Proof.
  refine (proj2 (handleAmenityToggle_twice "Gym" readyState) _ _).
  - vm_compute. intros [H|[H|[]]]; discriminate H.
  - reflexivity.
Defined.

Lemma onSubmit_cases (env : Env) (data : Form) (server : Outcome (option PostBody))
    (st : State) :
  onSubmit env data server st = st
  \/ (exists msg, onSubmit env data server st = showAlert msg error st)
  \/ (tokenMissing (getAuthToken env) = true
      /\ onSubmit env data server st
         = setIsLoading false
             (setIsLoading false
                (showAlert "Please login to add a property" error (setIsLoading true st))))
  \/ (step st = 5
      /\ someTruthy imageFields data = true
      /\ someTruthy videoFields data = true
      /\ tokenMissing (getAuthToken env) = false
      /\ onSubmit env data server st
         = setIsLoading false
             (settle server
                (send (apartmentRequest (getAuthToken env)
                         (buildFormData data (selectedAmenities st)))
                   (setIsLoading true st)))).
Proof.
  destruct (Z.eqb_spec (step st) 5) as [Hs|Hs].
  - destruct (someTruthy imageFields data) eqn:Hi.
    + destruct (someTruthy videoFields data) eqn:Hv.
      * destruct (tokenMissing (getAuthToken env)) eqn:Ht.
        -- right. right. left. split; [reflexivity|]. now apply onSubmit_no_token.
        -- right. right. right. repeat split; auto. now apply onSubmit_sent.
      * right. left. eexists. unfold onSubmit. rewrite Hs, Hi, Hv. reflexivity.
    + right. left. eexists. unfold onSubmit. rewrite Hs, Hi. reflexivity.
  - left. unfold onSubmit. apply Z.eqb_neq in Hs. now rewrite Hs.
Qed.

Lemma onSubmit_amenities (env : Env) (data : Form) (server : Outcome (option PostBody))
    (st : State) :
  selectedAmenities (onSubmit env data server st) = selectedAmenities st
  \/ selectedAmenities (onSubmit env data server st) = [].
Proof.
  destruct (onSubmit_cases env data server st)
    as [->|[(msg & ->)|[(_ & ->)|(_ & _ & _ & _ & ->)]]]; auto.
  set (st1 := send _ _).
  destruct (settle_cases server st1) as [(b & _ & _ & ->)|[(msg & ->)| ->]]; auto.
Qed.

Lemma handle_amenities (trigger : list string -> Form -> bool)
    (formValid : Form -> bool) (ev : Event) (st : State) :
  (exists amenity, ev = EvAmenityToggle amenity)
  \/ selectedAmenities (handle trigger formValid ev st) = selectedAmenities st
  \/ selectedAmenities (handle trigger formValid ev st) = [].
Proof.
  destruct ev as [env server|field value|amenity|fieldName type file
                 |n readerResult blobUrl|fieldName type| | |env server]; simpl.
  - right. left. apply fetchCategories_frame.
  - right. now left.
  - left. now exists amenity.
  - right. left. unfold handleFileChange. destruct file as [file|]; [|reflexivity].
    cbv zeta. destruct (file_size file >? maxSizeOf type); reflexivity.
  - right. left. unfold onloadend. destruct (readers st !! n) as [t|]; [|reflexivity].
    destruct (task_type t); reflexivity.
  - right. left. destruct type; reflexivity.
  - right. left. unfold nextStep.
    destruct (validateStep_frame trigger st) as [->|(msg & ->)];
      [destruct (fst (validateStep trigger st))|]; reflexivity.
  - right. now left.
  - right. unfold handleSubmit. destruct (formValid (form st)); [|now left].
    apply onSubmit_amenities.
Qed.

(** X11: in every state the wizard reaches, the selected amenities are
    pairwise distinct, all belong to the fixed vocabulary
    [AVAILABLE_AMENITIES], and the form value [amenities] is the same
    list. *)
Theorem reachable_amenities (trigger : list string -> Form -> bool)
    (formValid : Form -> bool) (st : State) :
  reachable trigger formValid st -> amenitiesWellFormed st.
Proof.
  intros Hreach. unfold amenitiesWellFormed.
  assert (Hsync : watch "amenities" (form st) = VArr (selectedAmenities st)).
  { apply (reachable_invariant _ _ _ Hreach). }
  cut (NoDup (selectedAmenities st)
       /\ forall a, In a (selectedAmenities st) -> In a AVAILABLE_AMENITIES);
    [tauto|].
  clear Hsync. induction Hreach as [|ev st Hreach [IHn IHs] Hen].
  - split; [constructor|intros a []].
  - destruct (handle_amenities trigger formValid ev st) as [(amenity & ->)|[->| ->]].
    + cbn [enabled] in Hen. apply andb_prop in Hen as [_ Hin]. apply inList_In in Hin.
      cbn [handle]. split; [now apply toggled_NoDup|].
      intros a Ha. destruct (String.eqb_spec a amenity) as [->|Hne]; [exact Hin|].
      apply IHs. rewrite toggled_amenities in Ha.
      destruct (existsb (String.eqb amenity) (selectedAmenities st)).
      * apply In_without in Ha. tauto.
      * apply in_app_or in Ha as [Ha|[<-|[]]]; [exact Ha|contradiction].
    + split; assumption.
    + split; [constructor|intros a []].
Qed.

Lemma reachable_amenities_witness : amenitiesWellFormed readyState.
Proof.
  apply (reachable_amenities acceptAll acceptForm), reachable_readyState.
Defined.

(** ** Navigation *)



Lemma setStep_same (st : State) : setStep (step st) st = st.
Proof. now destruct st. Qed.

Lemma navigation_frame_next (trigger : list string -> Form -> bool) (st : State) :
  (form (nextStep trigger st) = form st
   /\ imagePreview (nextStep trigger st) = imagePreview st
   /\ videoPreview (nextStep trigger st) = videoPreview st
   /\ selectedAmenities (nextStep trigger st) = selectedAmenities st
   /\ categories (nextStep trigger st) = categories st
   /\ requests (nextStep trigger st) = requests st)
  /\ readers (nextStep trigger st) = readers st.
Proof.
  unfold nextStep.
  destruct (validateStep_frame trigger st) as [->|(msg & ->)];
    [destruct (fst (validateStep trigger st))|]; repeat split.
Qed.

Lemma registerField_frame (st : State) (f : string) :
  step (registerField st f) = step st
  /\ imagePreview (registerField st f) = imagePreview st
  /\ videoPreview (registerField st f) = videoPreview st
  /\ selectedAmenities (registerField st f) = selectedAmenities st
  /\ categories (registerField st f) = categories st
  /\ requests (registerField st f) = requests st.
Proof. unfold registerField. destruct (watch f (form st)); repeat split. Qed.




Lemma registerAll_frame (fields : list string) (st : State) :
  step (fold_left registerField fields st) = step st
  /\ imagePreview (fold_left registerField fields st) = imagePreview st
  /\ videoPreview (fold_left registerField fields st) = videoPreview st
  /\ selectedAmenities (fold_left registerField fields st) = selectedAmenities st
  /\ categories (fold_left registerField fields st) = categories st
  /\ requests (fold_left registerField fields st) = requests st.
Proof.
  revert st. induction fields as [|f fs IH]; intros st; cbn [fold_left];
    [repeat split|].
  destruct (IH (registerField st f)) as (E1 & E2 & E3 & E4 & E5 & E6).
  destruct (registerField_frame st f) as (F1 & F2 & F3 & F4 & F5 & F6).
  rewrite E1, E2, E3, E4, E5, E6.
  split; [exact F1|split; [exact F2|split; [exact F3|split; [exact F4|split;
    [exact F5|exact F6]]]]].
Qed.




Lemma registerRendered_step (st : State) : step (registerRendered st) = step st.
Proof. apply registerAll_frame. Qed.



(** ** Submitting *)

Lemma app_singleton_neq {A} (l : list A) (x : A) : l ++ [x] <> l.
Proof.
  intros H. apply (f_equal length) in H. rewrite length_app in H. simpl in H. lia.
Qed.

Lemma attached_someTruthy (fields : list string) (f : Form) :
  forallb (fun field => slotTyped (watch field f)) fields = true ->
  (someTruthy fields f = true <-> attached fields f <> 0%nat).
Proof.
  intros Hty. rewrite (someTruthy_attached fields f Hty).
  destruct (Nat.eqb_spec (attached fields f) 0); simpl; split; congruence.
Qed.

(** X13: in a reachable state, submitting the form sends a request
    exactly when the form library accepts the form, the wizard is on
    step 5, at least one image file and one video file are attached, and
    the browser holds a non-empty token; it is then one request, added
    to the end of the log. In every other case nothing is sent. *)
Theorem submit_sends_iff (trigger : list string -> Form -> bool)
    (formValid : Form -> bool) (env : Env) (server : Outcome (option PostBody))
    (st : State) :
  reachable trigger formValid st ->
  (requests (handleSubmit formValid env server st) <> requests st
   <-> formValid (form st) = true
       /\ step st = 5
       /\ attached imageFields (form st) <> 0%nat
       /\ attached videoFields (form st) <> 0%nat
       /\ tokenMissing (getAuthToken env) = false)
  /\ (requests (handleSubmit formValid env server st) = requests st
      \/ exists r, requests (handleSubmit formValid env server st) = requests st ++ [r]).
Proof.
  intros Hreach.
  destruct (reachable_invariant _ _ _ Hreach) as (_ & _ & Hty & _).
  destruct (slotsTyped_split _ Hty) as [Hi Hv].
  pose proof (attached_someTruthy imageFields (form st) Hi) as Ai.
  pose proof (attached_someTruthy videoFields (form st) Hv) as Av.
  unfold handleSubmit. destruct (formValid (form st)) eqn:Hvalid.
  - destruct (onSubmit_cases env (form st) server st)
      as [E|[(msg & E)|[(Ht & E)|(Hs & Hsi & Hsv & Ht & E)]]].
    + assert (Hnot : ~ (step st = 5 /\ someTruthy imageFields (form st) = true
                        /\ someTruthy videoFields (form st) = true
                        /\ tokenMissing (getAuthToken env) = false)).
      { intros (Hs & Hsi & Hsv & Ht).
        rewrite (onSubmit_sent env (form st) server st Hs Hsi Hsv Ht) in E.
        apply (f_equal requests) in E. cbn [requests setIsLoading] in E.
        rewrite requests_settle in E. cbn [requests send setIsLoading] in E.
        now apply app_singleton_neq in E. }
      rewrite E. split; [|now left]. split; [congruence|].
      intros (_ & Hs & Hai & Hav & Ht). exfalso. apply Hnot. tauto.
    + assert (Hnot : ~ (step st = 5 /\ someTruthy imageFields (form st) = true
                        /\ someTruthy videoFields (form st) = true
                        /\ tokenMissing (getAuthToken env) = false)).
      { intros (Hs & Hsi & Hsv & Ht).
        rewrite (onSubmit_sent env (form st) server st Hs Hsi Hsv Ht) in E.
        apply (f_equal requests) in E. cbn [requests setIsLoading showAlert] in E.
        rewrite requests_settle in E. cbn [requests send setIsLoading] in E.
        now apply app_singleton_neq in E. }
      rewrite E. cbn [requests showAlert]. split; [|now left]. split; [congruence|].
      intros (_ & Hs & Hai & Hav & Ht). exfalso. apply Hnot. tauto.
    + rewrite E. cbn [requests showAlert setIsLoading]. split; [|now left].
      split; [congruence|]. intros (_ & _ & _ & _ & Ht'). congruence.
    + rewrite E. cbn [requests setIsLoading]. rewrite requests_settle.
      cbn [requests send setIsLoading]. split; [|right; eexists; reflexivity].
      split; [intros _; tauto|]. intros _. apply app_singleton_neq.
  - split; [|now left]. split; [congruence|]. intros (H & _). discriminate H.
Qed.

Lemma submit_sends_iff_witness :
  requests (handleSubmit acceptForm loggedIn (Resolved None) readyState)
  <> requests readyState.
Proof.
  apply (proj1 (submit_sends_iff acceptAll acceptForm loggedIn (Resolved None) readyState
                  reachable_readyState)).
  vm_compute. repeat split; discriminate.
Defined.

(** X14: a failure that is not an Axios error (or an answer without a
    body, where reading the success flag throws) is swallowed: the one
    request has been sent, but no notice is shown, nothing is reset and
    [isLoading] is back to [false]. *)
Theorem onSubmit_silent_failure (env : Env) (data : Form)
    (server : Outcome (option PostBody)) (st : State) :
  step st = 5 ->
  someTruthy imageFields data = true ->
  someTruthy videoFields data = true ->
  tokenMissing (getAuthToken env) = false ->
  server = Resolved None \/ (exists msg, server = Rejected (ThrownError msg)) ->
  let st' := onSubmit env data server st in
  notices st' = notices st
  /\ form st' = form st
  /\ step st' = step st
  /\ imagePreview st' = imagePreview st
  /\ videoPreview st' = videoPreview st
  /\ selectedAmenities st' = selectedAmenities st
  /\ isLoading st' = false
  /\ requests st' = requests st
       ++ [apartmentRequest (getAuthToken env) (buildFormData data (selectedAmenities st))].
Proof.
  intros Hs Hi Hv Ht Hserver st'. subst st'.
  rewrite (onSubmit_sent env data server st Hs Hi Hv Ht).
  destruct Hserver as [->|(msg & ->)]; repeat split.
Qed.

Lemma onSubmit_silent_failure_witness :
  notices (onSubmit loggedIn (form readyState) (Rejected (ThrownError "boom")) readyState)
  = notices readyState.
Proof.
  refine (proj1 (onSubmit_silent_failure loggedIn (form readyState)
                   (Rejected (ThrownError "boom")) readyState _ _ _ _ _));
    try reflexivity.
  right. now exists "boom".
Defined.

(** ** The form agrees with its interface *)

Lemma keys_setValue (k : string) (v : Value) (f : Form) :
  (In k (map fst f) /\ map fst (setValue k v f) = map fst f)
  \/ (~ In k (map fst f) /\ map fst (setValue k v f) = map fst f ++ [k]).
Proof.
  induction f as [|[k0 v0] rest IH]; simpl.
  - right. split; [tauto|reflexivity].
  - destruct (String.eqb_spec k0 k) as [->|Hne]; simpl.
    + left. split; [now left|reflexivity].
    + destruct IH as [[Hin ->]|[Hout ->]].
      * left. split; [now right|reflexivity].
      * right. split; [intros [H|H]; contradiction|reflexivity].
Qed.

Lemma forallb_setValue (P : string * Value -> bool) (k : string) (v : Value) (f : Form) :
  forallb P f = true -> P (k, v) = true -> forallb P (setValue k v f) = true.
Proof.
  intros Hf Hv. induction f as [|[k0 v0] rest IH]; simpl in *.
  - now rewrite Hv.
  - apply andb_prop in Hf as [H0 Hrest].
    destruct (String.eqb_spec k0 k) as [->|_]; simpl.
    + now rewrite Hv, Hrest.
    + now rewrite H0, IH.
Qed.

Lemma formTyped_setValue (k : string) (v : Value) (f : Form) :
  formTyped f -> entryTyped (k, v) = true -> formTyped (setValue k v f).
Proof.
  intros [Hnd Hty] Hv. split.
  - destruct (keys_setValue k v f) as [[_ ->]|[Hout ->]]; [exact Hnd|].
    apply NoDup_app. split; [exact Hnd|]. split; [|apply NoDup_singleton].
    intros x Hx Hxk. apply list_elem_of_singleton in Hxk. subst x.
    apply Hout, list_elem_of_In, Hx.
  - now apply forallb_setValue.
Qed.

Lemma formTyped_reset (st : State) :
  formTyped (form st) -> formTyped (form (resetAfterSuccess st)).
Proof.
  intros Hty. unfold resetAfterSuccess.
  cbn [form setStep setSelectedAmenities setVideoPreview setImagePreview
       fold_left imageFields videoFields formSet setForm].
  repeat (apply formTyped_setValue; [|reflexivity]). exact Hty.
Qed.

Lemma entryTyped_input (n : Z) (field value : string) :
  inList field (registeredAt n) = true -> entryTyped (field, VStr value) = true.
Proof.
  intros Hreg. apply inList_In in Hreg.
  assert (Hall : In field
            ["category_id"; "title"; "number_of_rooms"; "description"; "amount";
             "currency_code"; "security_deposit"; "duration"; "duration_type";
             "country_code"; "state_code"; "city_code"]).
  { unfold registeredAt in Hreg.
    repeat match type of Hreg with
           | context [match ?x with _ => _ end] => destruct x
           end; simpl in Hreg |- *; tauto. }
  clear Hreg. simpl in Hall.
  repeat (destruct Hall as [<-|Hall]; [reflexivity|]). contradiction.
Qed.

Lemma entryTyped_file (type : FileType) (fieldName : string) (file : File) :
  inList fieldName (slotsOf type) = true ->
  file_size file <= maxSizeOf type ->
  entryTyped (fieldName, VFile file) = true.
Proof.
  intros Hslot Hle. apply Z.leb_le in Hle. apply inList_In in Hslot.
  destruct type; simpl in Hslot;
    repeat (destruct Hslot as [<-|Hslot]; [exact Hle|]); contradiction.
Qed.

Lemma entryTyped_null (type : FileType) (fieldName : string) :
  inList fieldName (slotsOf type) = true ->
  entryTyped (fieldName, VNull) = true.
Proof.
  intros Hslot. apply inList_In in Hslot.
  destruct type; simpl in Hslot;
    repeat (destruct Hslot as [<-|Hslot]; [reflexivity|]); contradiction.
Qed.

Lemma formTyped_onSubmit (env : Env) (data : Form) (server : Outcome (option PostBody))
    (st : State) :
  formTyped (form st) -> formTyped (form (onSubmit env data server st)).
Proof.
  intros Hty.
  destruct (onSubmit_cases env data server st)
    as [->|[(msg & ->)|[(_ & ->)|(_ & _ & _ & _ & ->)]]]; try exact Hty.
  set (st1 := send _ _). rewrite form_setIsLoading.
  destruct (settle_cases server st1) as [(b & _ & _ & ->)|[(msg & ->)| ->]];
    try exact Hty.
  now apply formTyped_reset.
Qed.

Lemma formTyped_handle (trigger : list string -> Form -> bool)
    (formValid : Form -> bool) (ev : Event) (st : State) :
  formTyped (form st) -> enabled ev st = true ->
  formTyped (form (handle trigger formValid ev st)).
Proof.
  intros Hty Hen.
  destruct ev as [env server|field value|amenity|fieldName type file
                 |n readerResult blobUrl|fieldName type| | |env server];
    cbn [handle enabled] in *.
  - now rewrite (proj1 (proj2 (proj2 (fetchCategories_frame env server st)))).
  - apply formTyped_setValue; [exact Hty|]. eapply entryTyped_input, Hen.
  - rewrite toggled_form. now apply formTyped_setValue.
  - apply andb_prop in Hen as [_ Hslot].
    unfold handleFileChange. destruct file as [file|]; [|exact Hty]. cbv zeta.
    rewrite Z.gtb_ltb. destruct (Z.ltb_spec (maxSizeOf type) (file_size file));
      [exact Hty|].
    apply formTyped_setValue; [exact Hty|]. now apply (entryTyped_file type).
  - unfold onloadend. destruct (readers st !! n) as [t|]; [|exact Hty].
    destruct (task_type t); exact Hty.
  - apply andb_prop in Hen as [Hen _]. apply andb_prop in Hen as [_ Hslot].
    rewrite removeFile_form. apply formTyped_setValue; [exact Hty|].
    now apply (entryTyped_null type).
  - now rewrite (proj1 (proj1 (navigation_frame_next trigger st))).
  - exact Hty.
  - unfold handleSubmit. destruct (formValid (form st)); [|exact Hty].
    now apply formTyped_onSubmit.
Qed.

Lemma reachable_formTyped (trigger : list string -> Form -> bool)
    (formValid : Form -> bool) (st : State) :
  reachable trigger formValid st -> formTyped (form st).
Proof.
  induction 1 as [|ev st Hreach IH Hen].
  - split; [|reflexivity]. apply (bool_decide_unpack _). vm_compute. exact I.
  - now apply formTyped_handle.
Qed.

Lemma formTyped_file (f : Form) (k : string) (file : File) :
  formTyped f -> In (k, VFile file) f -> blobWithin k file.
Proof.
  intros [_ Hty] Hin. rewrite forallb_forall in Hty. specialize (Hty _ Hin).
  unfold entryTyped in Hty.
  destruct (inList k imageFields) eqn:Hi.
  - left. split; [now apply inList_In|]. now apply Z.leb_le.
  - destruct (inList k videoFields) eqn:Hv.
    + right. split; [now apply inList_In|]. now apply Z.leb_le.
    + destruct (String.eqb k "amenities"); [discriminate Hty|].
      apply andb_prop in Hty as [_ Hty]. discriminate Hty.
Qed.

(** X15: in every state the wizard reaches, a file held by the form
    sits in an image slot and is at most 3 MB, or sits in a video slot
    and is at most 10 MB; no other field ever holds a file, and no
    oversize file is ever stored. *)
Theorem reachable_files_within_limits (trigger : list string -> Form -> bool)
    (formValid : Form -> bool) (st : State) :
  reachable trigger formValid st ->
  forall k file, watch k (form st) = VFile file ->
    (In k imageFields /\ file_size file <= 3 * 1024 * 1024)
    \/ (In k videoFields /\ file_size file <= 10 * 1024 * 1024).
Proof.
  intros Hreach k file Hw.
  apply (formTyped_file (form st) k file (reachable_formTyped _ _ _ Hreach)).
  rewrite <- Hw. apply watch_In. rewrite Hw. discriminate.
Qed.

Lemma reachable_files_within_limits_witness :
  (In "image1" imageFields /\ file_size photo <= 3 * 1024 * 1024)
  \/ (In "image1" videoFields /\ file_size photo <= 10 * 1024 * 1024).
Proof.
  apply (reachable_files_within_limits acceptAll acceptForm readyState
           reachable_readyState "image1" photo).
  reflexivity.
Defined.

(** ** The requests that leave the component *)

Lemma appendField_keys (amenities : list string) (formData : FormData)
    (k : string) (v : Value) :
  map fst (appendField amenities formData (k, v)) = map fst formData ++ [k]
  \/ map fst (appendField amenities formData (k, v)) = map fst formData.
Proof.
  unfold appendField.
  destruct v; try (left; now rewrite map_app);
    destruct (String.eqb k "amenities"); cbn [notNullish];
    try (left; now rewrite map_app); now right.
Qed.

Lemma fold_appendField_keys (amenities : list string) (data : Form)
    (formData : FormData) :
  sublist (map fst (fold_left (appendField amenities) data formData))
          (map fst formData ++ map fst data).
Proof.
  revert formData. induction data as [|[k v] rest IH]; intros formData;
    cbn [fold_left map fst].
  - now rewrite app_nil_r.
  - etransitivity; [apply IH|].
    replace (map fst formData ++ k :: map fst rest)
      with ((map fst formData ++ [k]) ++ map fst rest)
      by (now rewrite <- app_assoc).
    apply sublist_app; [|reflexivity].
    destruct (appendField_keys amenities formData k v) as [-> | ->];
      [reflexivity|apply sublist_inserts_r; reflexivity].
Qed.

Lemma entryTyped_key (k : string) (v : Value) :
  entryTyped (k, v) = true ->
  In k (imageFields ++ videoFields ++ ["amenities"] ++ scalarFields).
Proof.
  unfold entryTyped. intros Hty.
  destruct (inList k imageFields) eqn:Hi.
  { apply inList_In in Hi. apply in_or_app. now left. }
  destruct (inList k videoFields) eqn:Hv.
  { apply inList_In in Hv. apply in_or_app. right. apply in_or_app. now left. }
  destruct (String.eqb_spec k "amenities") as [->|_].
  { apply in_or_app. right. apply in_or_app. right. now left. }
  apply andb_prop in Hty as [Hs _]. apply inList_In in Hs.
  apply in_or_app. right. apply in_or_app. right. now right.
Qed.

Lemma formTyped_key (f : Form) (k : string) :
  formTyped f -> In k (map fst f) ->
  In k (imageFields ++ videoFields ++ ["amenities"] ++ scalarFields).
Proof.
  intros [_ Hty] Hin. apply in_map_iff in Hin as ([k' v] & <- & Hin).
  rewrite forallb_forall in Hty. apply (entryTyped_key k' v). now apply Hty.
Qed.

Lemma payload_wellFormed (data : Form) (amenities : list string) :
  formTyped data ->
  NoDup (map fst (buildFormData data amenities))
  /\ forall k f, In (k, FBlob f) (buildFormData data amenities) -> blobWithin k f.
Proof.
  intros Hty. split.
  - unfold buildFormData. rewrite map_app.
    apply NoDup_app. split; [|split].
    + eapply sublist_NoDup; [|apply fold_appendField_keys]. apply Hty.
    + intros k Hk Hflag.
      assert (Hkey : In k (map fst data)).
      { apply list_elem_of_In.
        eapply elem_of_sublist; [exact Hk|].
        apply (fold_appendField_keys amenities data []). }
      pose proof (formTyped_key data k Hty Hkey) as Hknown.
      apply list_elem_of_In in Hflag. simpl in Hflag, Hknown.
      destruct Hflag as [<-|[<-|[]]]; intuition discriminate.
    + apply (bool_decide_unpack _). vm_compute. exact I.
  - intros k f Hin. apply buildFormData_spec in Hin as [(v & Hv & He)|[He|He]];
      [|discriminate He|discriminate He].
    inversion He; subst. now apply (formTyped_file data).
Qed.

Lemma handle_requests (trigger : list string -> Form -> bool)
    (formValid : Form -> bool) (ev : Event) (st : State) :
  requests (handle trigger formValid ev st) = requests st
  \/ (exists env server,
        ev = EvMount env server
        /\ requests (handle trigger formValid ev st)
           = requests st
             ++ [ {| method := GET;
                     url := "https://api.rent9ja.com.ng/api/apartment-types";
                     headers := [("Authorization",
                                  "Bearer " +:+ interpolate (getAuthToken env));
                                 ("Accept", "application/json")];
                     withCredentials := true;
                     body := None |} ])
  \/ (exists env server,
        ev = EvSubmit env server
        /\ tokenMissing (getAuthToken env) = false
        /\ requests (handle trigger formValid ev st)
           = requests st
             ++ [apartmentRequest (getAuthToken env)
                   (buildFormData (form st) (selectedAmenities st))]).
Proof.
  destruct ev as [env server|field value|amenity|fieldName type file
                 |n readerResult blobUrl|fieldName type| | |env server];
    cbn [handle].
  - right. left. exists env, server. split; [reflexivity|].
    unfold fetchCategories. destruct server as [[b|]|[e|m]]; cbv zeta;
      repeat match goal with |- context [if ?c then _ else _] => destruct c end;
      reflexivity.
  - now left.
  - now left.
  - left. unfold handleFileChange. destruct file as [file|]; [|reflexivity].
    cbv zeta. destruct (file_size file >? maxSizeOf type); reflexivity.
  - left. unfold onloadend. destruct (readers st !! n) as [t|]; [|reflexivity].
    destruct (task_type t); reflexivity.
  - left. destruct type; reflexivity.
  - left. apply navigation_frame_next.
  - now left.
  - unfold handleSubmit. destruct (formValid (form st)); [|now left].
    destruct (onSubmit_cases env (form st) server st)
      as [->|[(msg & ->)|[(_ & ->)|(_ & _ & _ & Ht & ->)]]]; try now left.
    right. right. exists env, server. split; [reflexivity|]. split; [exact Ht|].
    cbn [requests setIsLoading]. rewrite requests_settle. reflexivity.
Qed.

(** X16: every request the wizard has sent, in any reachable state, is
    either the [GET] of the category list, or a [POST] to the apartment
    endpoint that carries a non-empty bearer token and a payload with
    the flags [published = false] and [can_rate = false], no key twice,
    and only files that sit under an image or video slot within the
    3 MB / 10 MB limit of their type. *)
Theorem reachable_requests_wellFormed (trigger : list string -> Form -> bool)
    (formValid : Form -> bool) (st : State) :
  reachable trigger formValid st ->
  forall r, In r (requests st) -> requestWellFormed r.
Proof.
  induction 1 as [|ev st Hreach IH Hen]; [intros r []|].
  pose proof (reachable_formTyped _ _ _ Hreach) as Hty.
  intros r Hin.
  destruct (handle_requests trigger formValid ev st)
    as [E|[(env & server & _ & E)|(env & server & _ & Ht & E)]];
    rewrite E in Hin; [now apply IH| |];
    apply in_app_or in Hin as [Hin|[<-|[]]]; try now apply IH.
  - split; reflexivity.
  - unfold requestWellFormed, apartmentRequest. cbn [method url headers body].
    split; [reflexivity|]. split.
    + destruct (getAuthToken env) as [token|]; [|discriminate Ht].
      exists token. split; [|now left].
      intros ->. discriminate Ht.
    + exists (buildFormData (form st) (selectedAmenities st)).
      destruct (payload_wellFormed (form st) (selectedAmenities st) Hty) as [Hnd Hblob].
      split; [reflexivity|]. split; [|split; [|split; assumption]].
      * apply buildFormData_spec. right. now left.
      * apply buildFormData_spec. right. now right.
Qed.

Lemma reachable_requests_wellFormed_witness :
  requestWellFormed
    (apartmentRequest (getAuthToken loggedIn)
       (buildFormData (form readyState) (selectedAmenities readyState))).
Proof.
  apply (reachable_requests_wellFormed acceptAll acceptForm
           (handle acceptAll acceptForm
              (EvSubmit loggedIn (Resolved (Some (mkPostBody (VBool true)))))
              readyState)).
  - apply reachable_step; [apply reachable_readyState|reflexivity].
  - vm_compute. left. reflexivity.
Defined.

(** X17: every event sends at most one request, which goes to the end
    of the log, earlier entries being kept; and only mounting the
    component and submitting the form send anything. *)
Theorem one_request_per_event (trigger : list string -> Form -> bool)
    (formValid : Form -> bool) (ev : Event) (st : State) :
  exists sent,
    requests (handle trigger formValid ev st) = requests st ++ sent
    /\ (length sent <= 1)%nat
    /\ (sent <> [] ->
          (exists env server, ev = EvMount env server)
          \/ (exists env server, ev = EvSubmit env server)).
Proof.
  destruct (handle_requests trigger formValid ev st)
    as [E|[(env & server & Hev & E)|(env & server & Hev & _ & E)]].
  - exists []. rewrite app_nil_r. split; [exact E|]. split; [simpl; lia|congruence].
  - eexists. split; [exact E|]. split; [simpl; lia|]. intros _. left. eauto.
  - eexists. split; [exact E|]. split; [simpl; lia|]. intros _. right. eauto.
Qed.

Lemma one_request_per_event_witness :
  exists sent,
    requests (handle acceptAll acceptForm EvNextStep readyState)
    = requests readyState ++ sent
    /\ (length sent <= 1)%nat
    /\ (sent <> [] ->
          (exists env server, EvNextStep = EvMount env server)
          \/ (exists env server, EvNextStep = EvSubmit env server)).
Proof.
  apply (one_request_per_event acceptAll acceptForm EvNextStep readyState).
Defined.

(** ** Fetching the categories *)

(** X18: [fetchCategories] always sends exactly one request. It replaces
    the category list only when the answer carries a truthy success
    flag, and then by the list of the answer; it shows a notice only
    when the request fails with status 401 (the login notice); every
    other failure is silent. The form, the step and the previews are
    never touched. *)
Theorem fetchCategories_outcomes (env : Env) (server : Outcome (option CategoriesBody))
    (st : State) :
  let st' := fetchCategories env server st in
  (exists r, requests st' = requests st ++ [r])
  /\ ((exists b, server = Resolved (Some b) /\ truthy (cat_success b) = true
                 /\ categories st' = cat_data b)
      \/ categories st' = categories st)
  /\ ((exists e, server = Rejected (ThrownAxios e) /\ responseStatus e = Some 401
                 /\ notices st' = notices st ++ [("Please login to continue", error)])
      \/ notices st' = notices st)
  /\ (forall b, server = Resolved (Some b) -> truthy (cat_success b) = true ->
        categories st' = cat_data b /\ notices st' = notices st)
  /\ (forall e, server = Rejected (ThrownAxios e) -> responseStatus e = Some 401 ->
        notices st' = notices st ++ [("Please login to continue", error)]
        /\ categories st' = categories st)
  /\ form st' = form st /\ step st' = step st
  /\ imagePreview st' = imagePreview st /\ videoPreview st' = videoPreview st.
Proof.
  intros st'. subst st'. unfold fetchCategories. cbv zeta.
  destruct server as [[b|]|[e|m]].
  - destruct (truthy (cat_success b)) eqn:Hb;
      (split; [eexists; reflexivity|]);
      (split; [first [left; exists b; repeat split; assumption|now right]|]);
      (split; [now right|]);
      (split; [intros b' [= <-] Hb'; first [now split|congruence]|]);
      (split; [intros e H; discriminate H|]); repeat split.
  - split; [eexists; reflexivity|]. split; [now right|]. split; [now right|].
    split; [intros b H; discriminate H|]. split; [intros e H; discriminate H|].
    repeat split.
  - destruct (bool_decide (responseStatus e = Some 401)) eqn:H401;
      (split; [eexists; reflexivity|]); (split; [now right|]).
    + apply bool_decide_eq_true_1 in H401.
      split; [left; exists e; repeat split; assumption|].
      split; [intros b H; discriminate H|].
      split; [intros e' [= <-] _; now split|]. repeat split.
    + apply bool_decide_eq_false_1 in H401.
      split; [now right|]. split; [intros b H; discriminate H|].
      split; [intros e' [= <-] H; contradiction|]. repeat split.
  - split; [eexists; reflexivity|]. split; [now right|]. split; [now right|].
    split; [intros b H; discriminate H|]. split; [intros e H; discriminate H|].
    repeat split.
Qed.

Lemma fetchCategories_outcomes_witness :
  categories (fetchCategories loggedIn
                (Resolved (Some (mkCategoriesBody (VBool true)
                                   [mkCategory 2 "Flat" "flat"])))
                initialState)
  = [mkCategory 2 "Flat" "flat"]
  /\ notices (fetchCategories anonymous
                (Rejected (ThrownAxios (mkAxiosError (Some (mkErrorResponse 401 None)))))
                initialState)
     = notices initialState ++ [("Please login to continue", error)].
Proof.
  split.
  - refine (proj1 (proj1 (proj2 (proj2 (proj2
      (fetchCategories_outcomes loggedIn
         (Resolved (Some (mkCategoriesBody (VBool true) [mkCategory 2 "Flat" "flat"])))
         initialState)))) _ eq_refl eq_refl)).
  - refine (proj1 (proj1 (proj2 (proj2 (proj2 (proj2
      (fetchCategories_outcomes anonymous
         (Rejected (ThrownAxios (mkAxiosError (Some (mkErrorResponse 401 None)))))
         initialState))))) _ eq_refl eq_refl)).
Defined.

(** ** Fetching the subscriptions *)

(** X19: [getUserSubscriptions] sends a request exactly when
    [localStorage] exists and holds a non-empty token, and never more
    than one; the request is then a [GET] of
    [baseURL/subscriptions?page=..&search=..] (page 1 and an empty
    search by default, the page being an integer that JavaScript holds
    exactly, of absolute value below 2^53, and so prints in decimal
    digits) with the token as bearer, and the promise settles exactly
    as the backend settled the request: a failure of the request is
    rethrown unchanged. *)
Theorem getUserSubscriptions_with_token (baseURL : string) (D : Type)
    (page : option Z) (search : option string) (env : Env) (backend : Outcome D) :
  (fst (Subscriptions.getUserSubscriptions baseURL D page search env backend) <> []
   <-> window env = true /\ tokenMissing (getItem "token" env) = false)
  /\ (length (fst (Subscriptions.getUserSubscriptions baseURL D page search env backend))
      <= 1)%nat
  /\ (forall token,
        window env = true -> getItem "token" env = Some token -> token <> "" ->
        - 2 ^ 53 < default 1 page < 2 ^ 53 ->
        Subscriptions.getUserSubscriptions baseURL D page search env backend
        = ([ {| method := GET;
                url := baseURL +:+ "/subscriptions?page="
                         +:+ numToString (default 1 page)
                         +:+ "&search=" +:+ default "" search;
                headers := [("Authorization", "Bearer " +:+ token);
                            ("Accept", "application/json")];
                withCredentials := false;
                body := None |} ],
           backend)).
Proof.
  unfold Subscriptions.getUserSubscriptions. cbv zeta.
  destruct (window env); cbn [negb].
  - destruct (tokenMissing (getItem "token" env)) eqn:Ht.
    + split; [|split].
      * simpl. split; [congruence|]. intros [_ H]. discriminate H.
      * simpl. lia.
      * intros token _ Htok Hne _. rewrite Htok in Ht. simpl in Ht.
        apply String.eqb_eq in Ht. contradiction.
    + split; [|split].
      * simpl. split; [auto|discriminate].
      * simpl. lia.
      * intros token _ Htok _ _. rewrite Htok. reflexivity.
  - split; [|split].
    + simpl. split; [congruence|]. intros [H _]. discriminate H.
    + simpl. lia.
    + intros token H. discriminate H.
Qed.

Lemma getUserSubscriptions_with_token_witness :
  Subscriptions.getUserSubscriptions "https://api.rent9ja.com.ng/api" unit
    None None loggedIn (Rejected (ThrownError "down"))
  = ([ {| method := GET;
          url := "https://api.rent9ja.com.ng/api" +:+ "/subscriptions?page="
                   +:+ numToString 1 +:+ "&search=" +:+ "";
          headers := [("Authorization", "Bearer " +:+ "secret");
                      ("Accept", "application/json")];
          withCredentials := false;
          body := None |} ],
     Rejected (ThrownError "down")).
Proof.
  refine (proj2 (proj2 (getUserSubscriptions_with_token "https://api.rent9ja.com.ng/api"
                          unit None None loggedIn (Rejected (ThrownError "down"))))
            "secret" _ _ _ _);
    [reflexivity|reflexivity|discriminate|vm_compute; split; reflexivity].
Defined.

(** ** Previews and readers stay within the slots *)

Lemma previews_same (st st' : State) :
  previewsWellFormed st ->
  imagePreview st' = imagePreview st -> videoPreview st' = videoPreview st ->
  readers st' = readers st ->
  previewsWellFormed st'.
Proof.
  unfold previewsWellFormed. intros H Ei Ev Er. now rewrite Ei, Ev, Er.
Qed.

Lemma previews_onSubmit (env : Env) (data : Form) (server : Outcome (option PostBody))
    (st : State) :
  previewsWellFormed st -> previewsWellFormed (onSubmit env data server st).
Proof.
  intros Hp.
  destruct (onSubmit_cases env data server st)
    as [->|[(msg & ->)|[(_ & ->)|(_ & _ & _ & _ & ->)]]];
    try exact Hp; try (now apply (previews_same st)).
  set (st1 := send _ _).
  destruct (settle_cases server st1) as [(b & _ & _ & ->)|[(msg & ->)| ->]];
    try (now apply (previews_same st)).
  destruct Hp as (_ & _ & Hr). split; [|split].
  - intros k [u Hu]. cbn in Hu. rewrite lookup_empty in Hu. discriminate Hu.
  - intros k [u Hu]. cbn in Hu. rewrite lookup_empty in Hu. discriminate Hu.
  - exact Hr.
Qed.

Lemma previews_handle (trigger : list string -> Form -> bool)
    (formValid : Form -> bool) (ev : Event) (st : State) :
  previewsWellFormed st -> enabled ev st = true ->
  previewsWellFormed (handle trigger formValid ev st).
Proof.
  intros Hp Hen.
  destruct ev as [env server|field value|amenity|fieldName type file
                 |n readerResult blobUrl|fieldName type| | |env server];
    cbn [handle enabled] in *.
  - apply (previews_same st); auto;
      unfold fetchCategories; destruct server as [[b|]|[e|m]]; cbv zeta;
      repeat match goal with |- context [if ?c then _ else _] => destruct c end;
      reflexivity.
  - now apply (previews_same st).
  - now apply (previews_same st).
  - apply andb_prop in Hen as [_ Hslot]. apply inList_In in Hslot.
    unfold handleFileChange. destruct file as [file|]; [|exact Hp]. cbv zeta.
    destruct (file_size file >? maxSizeOf type); [now apply (previews_same st)|].
    destruct Hp as (Hi & Hv & Hr). split; [exact Hi|]. split; [exact Hv|].
    intros t Ht. cbn in Ht. apply in_app_or in Ht as [Ht|[<-|[]]]; [now apply Hr|].
    exact Hslot.
  - unfold onloadend. destruct (readers st !! n) as [t|] eqn:Hn; [|exact Hp].
    destruct Hp as (Hi & Hv & Hr).
    assert (Hslot : In (task_field t) (slotsOf (task_type t))).
    { apply Hr, list_elem_of_In. eapply list_elem_of_lookup_2, Hn. }
    assert (Hrest : forall t', In t' (delete n (readers st)) ->
                               In (task_field t') (slotsOf (task_type t'))).
    { intros t' Ht'. apply Hr. apply list_elem_of_In.
      eapply elem_of_sublist; [apply list_elem_of_In, Ht'|apply sublist_delete]. }
    cbv zeta. destruct (task_type t); (split; [|split]); cbn; auto.
    + intros k [u Hu]. destruct (decide (task_field t = k)) as [<-|Hne];
        [exact Hslot|]. rewrite lookup_insert_ne in Hu by exact Hne. apply Hi. eauto.
    + intros k [u Hu]. destruct (decide (task_field t = k)) as [<-|Hne];
        [exact Hslot|]. rewrite lookup_insert_ne in Hu by exact Hne. apply Hv. eauto.
  - destruct Hp as (Hi & Hv & Hr).
    destruct type; (split; [|split]); cbn; auto.
    + intros k [u Hu]. apply lookup_delete_Some in Hu as [_ Hu]. apply Hi. eauto.
    + intros k [u Hu]. apply lookup_delete_Some in Hu as [_ Hu]. apply Hv. eauto.
  - apply (previews_same st); auto; apply navigation_frame_next.
  - now apply (previews_same st).
  - unfold handleSubmit. destruct (formValid (form st)); [|exact Hp].
    now apply previews_onSubmit.
Qed.

(** X21: in every state the wizard reaches, an image preview is only
    kept under one of the five image slots, a video preview only under
    one of the five video slots, and every reader still loading was
    started for a slot of its own type. *)
Theorem reachable_previews (trigger : list string -> Form -> bool)
    (formValid : Form -> bool) (st : State) :
  reachable trigger formValid st -> previewsWellFormed st.
Proof.
  induction 1 as [|ev st Hreach IH Hen].
  - split; [|split].
    + intros k [u Hu]. cbn in Hu. rewrite lookup_empty in Hu. discriminate Hu.
    + intros k [u Hu]. cbn in Hu. rewrite lookup_empty in Hu. discriminate Hu.
    + intros t [].
  - now apply previews_handle.
Qed.

Lemma reachable_previews_witness : previewsWellFormed readyState.
Proof.
  apply (reachable_previews acceptAll acceptForm), reachable_readyState.
Defined.

End WizardExtras.
